(** * Training-Extensions: class-aware weight loading and the OpenVINO
      detection task

    A shallow embedding of
    - [CustomMaskRCNN.load_state_dict_pre_hook]
      (otx/mpa/modules/models/detectors/custom_maskrcnn_detector.py), and
    - the inferencers, [OTXOpenVinoDataLoader] and [OpenVINODetectionTask]
      (otx/algorithms/detection/adapters/openvino/task.py).

    Python dictionaries are finite maps ([gmap]), tensors are lists of
    rows, an object a method works on in place is passed to it and
    returned by it, and a raised exception is a constructor of the result
    type.  The functions the two files import from elsewhere are
    parameters: a section variable in Part I, the fields of a class in
    Part II. *)

From stdpp Require Import gmap strings list fin_maps.
From Stdlib Require Import ZArith Lia Ascii.

Local Open Scope string_scope.
Local Open Scope nat_scope.
Local Open Scope list_scope.

(** ** Part I.  CustomMaskRCNN.load_state_dict_pre_hook *)

Module MaskRCNN.

(** A tensor is seen along its dimension 0 only, which is the one the
    hook slices: a weight matrix is the list of its rows, a bias vector
    the list of its scalars.  The trailing dimensions of a model
    parameter and of its checkpoint counterpart are the same (the
    layer's input width), so a row is an atomic value here. *)
Abbreviation Tensor Row := (list Row) (only parsing).

Section Hook.

Context {Row : Type}.

(** [otx.mpa.modules.utils.task_adapt.map_class_names] is imported by the
    detector and not defined in it.  The hook only consumes its result,
    a list with, at position [m], the checkpoint index matched to model
    class [m] or a negative number. *)
Variable map_class_names : list string -> list string -> list Z.

(** [t[a:b]] for [0 <= a <= b]; Python clamps a slice to the tensor. *)
Definition slice (a b : nat) (t : Tensor Row) : Tensor Row := take (b - a) (drop a t).

(** [dst[a:b].copy_(src)].  The slice is a view, so the rows of [dst] are
    overwritten in place.  [copy_] needs [src] to broadcast to the shape
    of the view: the same number of rows, or a single row that is
    repeated.  Anything else is torch's [RuntimeError], here [None]. *)
Definition slice_copy_ (dst : Tensor Row) (a b : nat) (src : Tensor Row) : option (Tensor Row) :=
  let n := length (slice a b dst) in
  if decide (length src = n) then
    Some (take a dst ++ src ++ drop (a + n) dst)
  else
    match src with
    | [r] => Some (take a dst ++ replicate n r ++ drop (a + n) dst)
    | _ => None
    end.

(** [for m, c in enumerate(model2chkpt): if c >= 0: ... copy_ ...],
    started at index [m]. *)
Fixpoint mix_rows (stride : nat) (chkpt_param : Tensor Row) (m : nat)
    (model2chkpt : list Z) (model_param : Tensor Row) : option (Tensor Row) :=
  match model2chkpt with
  | [] => Some model_param
  | c :: rest =>
      if (0 <=? c)%Z then
        let ci := Z.to_nat c in
        match slice_copy_ model_param (m * stride) ((m + 1) * stride)
                (slice (ci * stride) ((ci + 1) * stride) chkpt_param) with
        | Some model_param' => mix_rows stride chkpt_param (S m) rest model_param'
        | None => None
        end
      else mix_rows stride chkpt_param (S m) rest model_param
  end.

(** [model_classes * stride]: Python list repetition. *)
Definition list_mul {A} (l : list A) (n : nat) : list A := mjoin (replicate n l).

(** The body of the loop over [param_strides] for one parameter present
    in both dicts: the "Mix weights" block, lines 63-72. *)
Definition mix_param (stride : nat) (model_classes chkpt_classes : list string)
    (model2chkpt : list Z) (model_param chkpt_param : Tensor Row) : option (Tensor Row) :=
  match mix_rows stride chkpt_param 0 model2chkpt model_param with
  | Some model_param' =>
      if decide (length (list_mul model_classes stride) < length model_param') then
        (* BG class *)
        let c := length chkpt_classes in
        let m := length model_classes in
        slice_copy_ model_param' (m * stride) ((m + 1) * stride)
          (slice (c * stride) ((c + 1) * stride) chkpt_param)
      else Some model_param'
  | None => None
  end.

(** List of class-relevant params and their row-stride, in the order
    the dict literal lists them. *)
Definition param_strides : list (string * nat) :=
  [ ("roi_head.bbox_head.fc_cls.weight", 1);
    ("roi_head.bbox_head.fc_cls.bias", 1);
    ("roi_head.bbox_head.fc_reg.weight", 4);
    ("roi_head.bbox_head.fc_reg.bias", 4) ].

(** What the caller of the hook sees: the checkpoint dict as the hook
    left it, after a normal return or after the exception of a failed
    [copy_]. *)
Inductive hook_result : Type :=
| Returned (chkpt_dict : gmap string (Tensor Row))
| RuntimeError (chkpt_dict : gmap string (Tensor Row)).

Fixpoint hook_loop (model_dict : gmap string (Tensor Row))
    (model_classes chkpt_classes : list string) (model2chkpt : list Z)
    (prefix : string) (params : list (string * nat))
    (chkpt_dict : gmap string (Tensor Row)) : hook_result :=
  match params with
  | [] => Returned chkpt_dict
  | (model_name, stride) :: rest =>
      let chkpt_name := prefix +:+ model_name in
      match model_dict !! model_name, chkpt_dict !! chkpt_name with
      | Some model_param, Some chkpt_param =>
          match mix_param stride model_classes chkpt_classes model2chkpt
                  model_param chkpt_param with
          | Some mixed =>
              (* Replace checkpoint weight by mixed weights *)
              hook_loop model_dict model_classes chkpt_classes model2chkpt
                prefix rest (<[chkpt_name := mixed]> chkpt_dict)
          | None => RuntimeError chkpt_dict
          end
      | _, _ =>
          (* Skipping weight copy *)
          hook_loop model_dict model_classes chkpt_classes model2chkpt
            prefix rest chkpt_dict
      end
  end.

(** [model_dict] is [model.state_dict()]. *)
Definition load_state_dict_pre_hook (model_dict : gmap string (Tensor Row))
    (model_classes chkpt_classes : list string)
    (chkpt_dict : gmap string (Tensor Row)) (prefix : string) : hook_result :=
  let model2chkpt := map_class_names model_classes chkpt_classes in
  hook_loop model_dict model_classes chkpt_classes model2chkpt prefix
    param_strides chkpt_dict.

(** *** Vocabulary of the statements *)






(** *** Rows of a slice and of a copied block *)






(** *** The loop over the class mapping *)

(** What [mix_rows] leaves, row by row: the rows of every matched block
    come from the checkpoint, every other row is the model's. *)
Definition mixed (stride : nat) (model2chkpt : list Z) (m0 : nat)
    (model_param chkpt_param p : Tensor Row) : Prop :=
  length p = length model_param /\
  (forall j c k, model2chkpt !! j = Some c -> (0 <= c)%Z -> k < stride ->
     p !! ((m0 + j) * stride + k) = chkpt_param !! (Z.to_nat c * stride + k)) /\
  (forall i,
     (forall j c, model2chkpt !! j = Some c -> (0 <= c)%Z ->
        ~ ((m0 + j) * stride <= i < (m0 + j + 1) * stride)) ->
     p !! i = model_param !! i).


Lemma length_list_mul {A} (l : list A) (n : nat) :
  length (list_mul l n) = length l * n.
Proof.
  unfold list_mul. induction n as [| n IH]; [simpl; lia |].
  change (length (l ++ mjoin (replicate n l)) = length l * S n).
  rewrite length_app, IH. lia.
Qed.

(** *** One parameter *)




(** *** The loop over [param_strides] *)


Lemma param_strides_NoDup : NoDup param_strides.*1.
Proof. compute_done. Qed.

(** *** The hook *)


(** *** Further properties of the hook *)

(** The checkpoint dict a run of the hook leaves. *)
Definition hook_dict (r : hook_result) : gmap string (Tensor Row) :=
  match r with Returned d | RuntimeError d => d end.

Lemma length_slice_copy_ (dst src dst' : Tensor Row) (a b : nat) :
  slice_copy_ dst a b src = Some dst' -> length dst' = length dst.
Proof.
  unfold slice_copy_.
  assert (Hn : a + length (slice a b dst) <= length dst \/
               (length dst < a /\ length (slice a b dst) = 0)).
  { unfold slice. rewrite length_take, length_drop. lia. }
  destruct (decide (length src = length (slice a b dst))) as [Heq | Hne].
  - intros [= <-]. rewrite !length_app, length_take, length_drop. lia.
  - destruct src as [| r [| ? ?]]; try discriminate.
    intros [= <-]. rewrite !length_app, length_take, length_drop, length_replicate. lia.
Qed.

Lemma length_mix_rows (stride : nat) (chkpt_param : Tensor Row) (model2chkpt : list Z) :
  forall (m0 : nat) (model_param p : Tensor Row),
    mix_rows stride chkpt_param m0 model2chkpt model_param = Some p ->
    length p = length model_param.
Proof.
  induction model2chkpt as [| c rest IH]; intros m0 model_param p; cbn [mix_rows].
  - by intros [= <-].
  - destruct (0 <=? c)%Z; [| by apply IH].
    destruct (slice_copy_ _ _ _ _) as [mp' |] eqn:Hcopy; [| discriminate].
    intros Hrest. apply IH in Hrest. apply length_slice_copy_ in Hcopy. congruence.
Qed.

Lemma length_mix_param (stride : nat) (model_classes chkpt_classes : list string)
    (model2chkpt : list Z) (model_param chkpt_param rp : Tensor Row) :
  mix_param stride model_classes chkpt_classes model2chkpt model_param chkpt_param
    = Some rp ->
  length rp = length model_param.
Proof.
  unfold mix_param.
  destruct (mix_rows _ _ _ _ _) as [p |] eqn:Hp; [| discriminate].
  apply length_mix_rows in Hp.
  destruct (decide _); [| intros [= <-]; done].
  intros Hcopy. apply length_slice_copy_ in Hcopy. congruence.
Qed.

(** A run of the loop, whatever its outcome, keeps the keys of the dict
    and touches only the entries of parameters present in both dicts. *)
Lemma hook_loop_footprint (model_dict : gmap string (Tensor Row))
    (model_classes chkpt_classes : list string) (model2chkpt : list Z)
    (prefix : string) (params : list (string * nat)) :
  forall chkpt_dict : gmap string (Tensor Row),
    let d' := hook_dict (hook_loop model_dict model_classes chkpt_classes model2chkpt
                           prefix params chkpt_dict) in
    dom d' = dom chkpt_dict /\
    (forall k,
       (forall name stride, (name, stride) ∈ params -> k = prefix +:+ name ->
          model_dict !! name = None \/ chkpt_dict !! k = None) ->
       d' !! k = chkpt_dict !! k).
Proof.
  induction params as [| [name0 stride0] rest IH]; intros d; cbn [hook_loop].
  - done.
  - destruct (model_dict !! name0) as [mp0 |] eqn:Hmp0;
      [destruct (d !! (prefix +:+ name0)) as [cp0 |] eqn:Hcp0 |].
    + destruct (mix_param _ _ _ _ _ _) as [mixed |]; cbn.
      * destruct (IH (<[prefix +:+ name0 := mixed]> d)) as [Hdom Hframe]. split.
        -- rewrite Hdom, dom_insert_L.
           apply subseteq_union_1_L, singleton_subseteq_l, elem_of_dom. eauto.
        -- intros k Hk.
           assert (k <> prefix +:+ name0) as Hne.
           { intros ->. destruct (Hk name0 stride0) as [? | ?]; [left | done | |];
               congruence. }
           rewrite Hframe, lookup_insert_ne; [done | done |].
           intros name stride Hin ->. rewrite lookup_insert_ne by done.
           apply (Hk name stride); [by right | done].
      * done.
    + destruct (IH d) as [Hdom Hframe]. split; [done |].
      intros k Hk. apply Hframe. intros name stride Hin. apply (Hk name stride). by right.
    + destruct (IH d) as [Hdom Hframe]. split; [done |].
      intros k Hk. apply Hframe. intros name stride Hin. apply (Hk name stride). by right.
Qed.

(** A run of the loop that returns has mixed every parameter present in
    both dicts, each from the entry it had at the start. *)
Lemma hook_loop_returned (model_dict : gmap string (Tensor Row))
    (model_classes chkpt_classes : list string) (model2chkpt : list Z)
    (prefix : string) (params : list (string * nat)) :
  NoDup params.*1 ->
  forall chkpt_dict d' : gmap string (Tensor Row),
    hook_loop model_dict model_classes chkpt_classes model2chkpt prefix params chkpt_dict
      = Returned d' ->
    forall name stride mp cp, (name, stride) ∈ params ->
      model_dict !! name = Some mp -> chkpt_dict !! (prefix +:+ name) = Some cp ->
      exists rp,
        mix_param stride model_classes chkpt_classes model2chkpt mp cp = Some rp /\
        d' !! (prefix +:+ name) = Some rp.
Proof.
  induction params as [| [name0 stride0] rest IH]; intros Hnodup d d' Hrun
    name stride mp cp Hin Hmp Hcp.
  - by apply elem_of_nil in Hin.
  - cbn in Hnodup. apply NoDup_cons in Hnodup as [Hfresh Hnodup].
    assert (Hother : forall name stride, (name, stride) ∈ rest ->
              prefix +:+ name <> prefix +:+ name0).
    { intros name1 stride1 Hin1 Heq. apply (inj (String.app prefix)) in Heq as ->.
      apply Hfresh. apply list_elem_of_fmap. by exists (name0, stride1). }
    cbn [hook_loop] in Hrun.
    apply elem_of_cons in Hin as [Heq | Hin].
    + injection Heq as -> ->. rewrite Hmp, Hcp in Hrun.
      destruct (mix_param _ _ _ _ _ _) as [mixed |]; [| discriminate].
      exists mixed. split; [done |].
      pose proof (hook_loop_footprint model_dict model_classes chkpt_classes model2chkpt
                    prefix rest (<[prefix +:+ name0 := mixed]> d)) as [_ Hframe].
      rewrite Hrun in Hframe. cbn in Hframe.
      rewrite Hframe, lookup_insert_eq; [done |].
      intros name1 stride1 Hin1 Heq. by apply Hother in Hin1.
    + destruct (model_dict !! name0) as [mp0 |];
        [destruct (d !! (prefix +:+ name0)) as [cp0 |] |].
      * destruct (mix_param stride0 _ _ _ mp0 cp0) as [mixed |]; [| discriminate].
        apply (IH Hnodup _ _ Hrun name stride mp cp Hin Hmp).
        rewrite lookup_insert_ne; [done |]. symmetry. by eapply Hother.
      * by apply (IH Hnodup _ _ Hrun name stride mp cp).
      * by apply (IH Hnodup _ _ Hrun name stride mp cp).
Qed.

(** A run of the loop in which every mix succeeds returns. *)
Lemma hook_loop_returns (model_dict : gmap string (Tensor Row))
    (model_classes chkpt_classes : list string) (model2chkpt : list Z)
    (prefix : string) (params : list (string * nat)) :
  NoDup params.*1 ->
  forall chkpt_dict : gmap string (Tensor Row),
    (forall name stride mp cp, (name, stride) ∈ params ->
       model_dict !! name = Some mp -> chkpt_dict !! (prefix +:+ name) = Some cp ->
       is_Some (mix_param stride model_classes chkpt_classes model2chkpt mp cp)) ->
    exists d',
      hook_loop model_dict model_classes chkpt_classes model2chkpt prefix params chkpt_dict
        = Returned d'.
Proof.
  induction params as [| [name0 stride0] rest IH]; intros Hnodup d Hmix.
  - by exists d.
  - cbn in Hnodup. apply NoDup_cons in Hnodup as [Hfresh Hnodup].
    assert (Hother : forall name stride, (name, stride) ∈ rest ->
              prefix +:+ name <> prefix +:+ name0).
    { intros name1 stride1 Hin1 Heq. apply (inj (String.app prefix)) in Heq as ->.
      apply Hfresh. apply list_elem_of_fmap. by exists (name0, stride1). }
    cbn [hook_loop].
    destruct (model_dict !! name0) as [mp0 |] eqn:Hmp0;
      [destruct (d !! (prefix +:+ name0)) as [cp0 |] eqn:Hcp0 |].
    + destruct (Hmix name0 stride0 mp0 cp0) as [mixed Hmixed]; [left | done | done |].
      rewrite Hmixed. apply (IH Hnodup).
      intros name stride mp cp Hin Hmp Hcp.
      rewrite lookup_insert_ne in Hcp by (symmetry; by eapply Hother).
      apply (Hmix name stride); [by right | done | done].
    + apply (IH Hnodup). intros name stride mp cp Hin. apply Hmix. by right.
    + apply (IH Hnodup). intros name stride mp cp Hin. apply Hmix. by right.
Qed.

(** X1.  Whether it returns or raises, the hook leaves the checkpoint dict
    with the keys it had, and with the entry it had under every key that
    is not the prefixed name of a parameter of [param_strides] present in
    both dicts. *)
Theorem load_state_dict_pre_hook_footprint
    (model_dict : gmap string (Tensor Row)) (model_classes chkpt_classes : list string)
    (chkpt_dict : gmap string (Tensor Row)) (prefix : string) :
  let d' := hook_dict (load_state_dict_pre_hook model_dict model_classes chkpt_classes
                         chkpt_dict prefix) in
  dom d' = dom chkpt_dict /\
  (forall k,
     (forall name stride, (name, stride) ∈ param_strides -> k = prefix +:+ name ->
        model_dict !! name = None \/ chkpt_dict !! k = None) ->
     d' !! k = chkpt_dict !! k).
Proof. apply hook_loop_footprint. Qed.

(** X2.  When the hook returns, whatever the shapes in the checkpoint,
    every parameter of [param_strides] present in both dicts has, in the
    checkpoint dict, the number of rows of the model's parameter. *)
Theorem load_state_dict_pre_hook_model_rows
    (model_dict : gmap string (Tensor Row)) (model_classes chkpt_classes : list string)
    (chkpt_dict d' : gmap string (Tensor Row)) (prefix : string) :
  load_state_dict_pre_hook model_dict model_classes chkpt_classes chkpt_dict prefix
    = Returned d' ->
  forall name stride mp cp, (name, stride) ∈ param_strides ->
    model_dict !! name = Some mp -> chkpt_dict !! (prefix +:+ name) = Some cp ->
    exists rp, d' !! (prefix +:+ name) = Some rp /\ length rp = length mp.
Proof.
  intros Hrun name stride mp cp Hin Hmp Hcp.
  destruct (hook_loop_returned _ _ _ _ _ _ param_strides_NoDup _ _ Hrun
              name stride mp cp Hin Hmp Hcp) as (rp & Hmix & Hrp).
  exists rp. split; [done |]. by eapply length_mix_param.
Qed.

(** With no class matched, the loop over the mapping copies nothing. *)
Lemma mix_rows_unmatched (stride : nat) (chkpt_param : Tensor Row) (model2chkpt : list Z) :
  Forall (fun c => (c < 0)%Z) model2chkpt ->
  forall (m0 : nat) (model_param : Tensor Row),
    mix_rows stride chkpt_param m0 model2chkpt model_param = Some model_param.
Proof.
  induction 1 as [| c rest Hc _ IH]; intros m0 model_param; cbn [mix_rows]; [done |].
  rewrite (proj2 (Z.leb_gt 0 c) Hc). apply IH.
Qed.





(** X4.  When no model class is matched and no class-relevant parameter
    of the model has rows beyond its class blocks, the hook returns,
    whatever the checkpoint holds, and each such parameter present in both
    dicts is replaced by the model's own. *)
Theorem load_state_dict_pre_hook_nothing_matched
    (model_dict : gmap string (Tensor Row)) (model_classes chkpt_classes : list string)
    (chkpt_dict : gmap string (Tensor Row)) (prefix : string) :
  Forall (fun c => (c < 0)%Z) (map_class_names model_classes chkpt_classes) ->
  (forall name stride mp, (name, stride) ∈ param_strides ->
     model_dict !! name = Some mp -> length mp <= length model_classes * stride) ->
  exists d',
    load_state_dict_pre_hook model_dict model_classes chkpt_classes chkpt_dict prefix
      = Returned d' /\
    forall name stride mp cp, (name, stride) ∈ param_strides ->
      model_dict !! name = Some mp -> chkpt_dict !! (prefix +:+ name) = Some cp ->
      d' !! (prefix +:+ name) = Some mp.
Proof.
  intros Hnone Hrows. unfold load_state_dict_pre_hook.
  assert (Hmix : forall name stride mp cp, (name, stride) ∈ param_strides ->
            model_dict !! name = Some mp ->
            mix_param stride model_classes chkpt_classes
              (map_class_names model_classes chkpt_classes) mp cp = Some mp).
  { intros name stride mp cp Hin Hmp. unfold mix_param.
    rewrite mix_rows_unmatched by done. rewrite length_list_mul.
    destruct (decide _) as [Hgt | _]; [| done].
    specialize (Hrows name stride mp Hin Hmp). lia. }
  destruct (hook_loop_returns model_dict model_classes chkpt_classes
              (map_class_names model_classes chkpt_classes) prefix param_strides
              param_strides_NoDup chkpt_dict) as [d' Hrun].
  { intros name stride mp cp Hin Hmp _. rewrite (Hmix name stride mp cp) by done. eauto. }
  exists d'. split; [done |].
  intros name stride mp cp Hin Hmp Hcp.
  destruct (hook_loop_returned _ _ _ _ _ _ param_strides_NoDup _ _ Hrun
              name stride mp cp Hin Hmp Hcp) as (rp & Hrp & Hd').
  rewrite (Hmix name stride mp cp) in Hrp by done. congruence.
Qed.

End Hook.

(** *** A concrete run *)

(** Class-name matching as the hook's log line describes it
    ([chkpt_classes -> model_classes (model2chkpt)]): the position of each
    model class in the checkpoint's class list, [-1] when it is not
    there.  It instantiates [map_class_names] in the runs below. *)
Fixpoint index_of (x : string) (l : list string) (i : Z) : Z :=
  match l with
  | [] => (-1)%Z
  | y :: l' => if decide (x = y) then i else index_of x l' (i + 1)%Z
  end.

Definition match_by_name (model_classes chkpt_classes : list string) : list Z :=
  map (fun x => index_of x chkpt_classes 0%Z) model_classes.

(** A head for two classes and background, and a checkpoint trained on
    three classes and background, in another order. *)
Definition demo_model_classes : list string := ["car"; "tree"].
Definition demo_chkpt_classes : list string := ["person"; "car"; "dog"].

Definition demo_model_dict : gmap string (list Z) :=
  {[ "roi_head.bbox_head.fc_cls.bias" := [10; 20; 30]%Z;
     "roi_head.bbox_head.fc_reg.bias" := [11; 12; 13; 14; 21; 22; 23; 24]%Z;
     "backbone.conv1.weight" := [7]%Z ]}.

Definition demo_chkpt_dict : gmap string (list Z) :=
  {[ "roi_head.bbox_head.fc_cls.bias" := [100; 200; 300; 400]%Z;
     "roi_head.bbox_head.fc_reg.bias" :=
       [101; 102; 103; 104; 201; 202; 203; 204; 301; 302; 303; 304]%Z;
     "roi_head.bbox_head.fc_cls.weight" := [1; 2; 3; 4]%Z;
     "backbone.conv1.weight" := [8]%Z ]}.

Example demo_run :
  load_state_dict_pre_hook match_by_name demo_model_dict demo_model_classes
    demo_chkpt_classes demo_chkpt_dict ""
  = Returned
      (<[ "roi_head.bbox_head.fc_cls.bias" := [200; 20; 400]%Z ]>
         (<[ "roi_head.bbox_head.fc_reg.bias" :=
               [201; 202; 203; 204; 21; 22; 23; 24]%Z ]> demo_chkpt_dict)).
Proof. vm_compute. reflexivity. Qed.


(** A checkpoint whose box regressor has a single block of four rows
    (class-agnostic regression), loaded into a class-aware head: model
    class 0 ("car") is matched to checkpoint index 1, whose block
    [[4:8]] is empty. *)
Definition agnostic_model_dict : gmap string (list Z) :=
  {[ "roi_head.bbox_head.fc_reg.bias" := [11; 12; 13; 14; 21; 22; 23; 24]%Z ]}.

Definition agnostic_chkpt_dict : gmap string (list Z) :=
  {[ "roi_head.bbox_head.fc_reg.bias" := [101; 102; 103; 104]%Z ]}.


(** The theorem on the rows of the mixed parameters at the run above:
    the box regressor of the checkpoint had twelve rows and has the eight
    of the model's. *)
Lemma load_state_dict_pre_hook_model_rows_demo :
  exists d' rp,
    load_state_dict_pre_hook match_by_name demo_model_dict demo_model_classes
      demo_chkpt_classes demo_chkpt_dict "" = Returned d' /\
    d' !! "roi_head.bbox_head.fc_reg.bias" = Some rp /\
    length rp = 8.
Proof.
  destruct (load_state_dict_pre_hook_model_rows match_by_name demo_model_dict
              demo_model_classes demo_chkpt_classes demo_chkpt_dict _ "" demo_run
              "roi_head.bbox_head.fc_reg.bias" 4
              [11; 12; 13; 14; 21; 22; 23; 24]%Z
              [101; 102; 103; 104; 201; 202; 203; 204; 301; 302; 303; 304]%Z)
    as (rp & Hrp & Hlen).
  { compute_done. }
  { vm_compute; reflexivity. }
  { vm_compute; reflexivity. }
  eexists _, rp. split; [exact demo_run |]. split; [exact Hrp | exact Hlen].
Defined.



(** The theorem on a checkpoint with none of the model's classes, at the
    class-aware box regressor above: the checkpoint's single block is
    replaced by the model's eight rows. *)
Lemma load_state_dict_pre_hook_nothing_matched_demo :
  match_by_name demo_model_classes ["person"; "dog"] = [-1; -1]%Z /\
  exists d',
    load_state_dict_pre_hook match_by_name agnostic_model_dict demo_model_classes
      ["person"; "dog"] agnostic_chkpt_dict "" = Returned d' /\
    d' !! "roi_head.bbox_head.fc_reg.bias" = Some [11; 12; 13; 14; 21; 22; 23; 24]%Z.
Proof.
  split; [reflexivity |].
  destruct (load_state_dict_pre_hook_nothing_matched match_by_name agnostic_model_dict
              demo_model_classes ["person"; "dog"] agnostic_chkpt_dict "")
    as (d' & Hrun & Hmodel).
  - repeat constructor.
  - intros name stride mp Hin Hmp.
    repeat (apply elem_of_cons in Hin as [Hin | Hin];
            [injection Hin as -> ->; vm_compute in Hmp;
             try discriminate Hmp; injection Hmp as <-; cbn; lia |]).
    by apply elem_of_nil in Hin.
  - exists d'. split; [exact Hrun |].
    apply (Hmodel "roi_head.bbox_head.fc_reg.bias" 4 _ [101; 102; 103; 104]%Z).
    + compute_done.
    + vm_compute; reflexivity.
    + vm_compute; reflexivity.
Defined.

End MaskRCNN.

(** ** Part II.  The OpenVINO detection task *)

Module OpenVINO.

Abbreviation Bytes := (list Byte.byte) (only parsing).

(** *** Exceptions and results *)

(** The exceptions the task raises itself, those Python raises for it,
    and [LibraryError] for whatever a called library raises. *)
Inductive Exception : Type :=
| ValueError (msg : string)
| RuntimeError (msg : string)
| KeyError (key : string)
| IndexError
| ZeroDivisionError
| UnboundLocalError (name : string)
| AssertionError (msg : string)
| LibraryError (msg : string).

Inductive Res (A : Type) : Type :=
| Ok (a : A)
| Raise (e : Exception).

Arguments Ok {A} a.
Arguments Raise {A} e.

#[global] Instance Res_ret : MRet Res := fun A a => Ok a.

#[global] Instance Res_bind : MBind Res :=
  fun A B f r => match r with Ok a => f a | Raise e => Raise e end.

(** A [for] loop whose body may raise: the values of the iterations, or
    the first exception. *)
Fixpoint for_in {A B} (body : A -> Res B) (l : list A) : Res (list B) :=
  match l with
  | [] => Ok []
  | x :: l' =>
      match body x with
      | Ok y => match for_in body l' with Ok ys => Ok (y :: ys) | Raise e => Raise e end
      | Raise e => Raise e
      end
  end.

(** A method: it reads and updates the objects [S] it works on, and
    returns or raises.  The objects are as the method left them in both
    cases. *)
Definition M (S A : Type) : Type := S -> Res A * S.

#[global] Instance M_ret {S} : MRet (M S) := fun A a s => (Ok a, s).

#[global] Instance M_bind {S} : MBind (M S) :=
  fun A B f m s =>
    match m s with
    | (Ok a, s') => f a s'
    | (Raise e, s') => (Raise e, s')
    end.

Definition raise {S A} (e : Exception) : M S A := fun s => (Raise e, s).
Definition call {S A} (r : Res A) : M S A := fun s => (r, s).
Definition read {S A} (f : S -> A) : M S A := fun s => (Ok (f s), s).
Definition update {S} (f : S -> S) : M S unit := fun s => (Ok tt, f s).

(** *** Enumerations of otx.api

    Each enumeration lists the members the task names; [OTHER] stands for
    every other member. *)

Module TaskType.
Inductive t : Type :=
| DETECTION
| INSTANCE_SEGMENTATION
| ROTATED_DETECTION
| OTHER (name : string).
#[global] Instance eq_dec : EqDecision t.
Proof. solve_decision. Defined.
End TaskType.

Module OptimizationType.
Inductive t : Type := POT | OTHER (name : string).
#[global] Instance eq_dec : EqDecision t.
Proof. solve_decision. Defined.
End OptimizationType.

Module ModelFormat.
Inductive t : Type := OPENVINO | OTHER (name : string).
End ModelFormat.

Module ModelOptimizationType.
Inductive t : Type := POT | OTHER (name : string).
End ModelOptimizationType.

Module OptimizationMethod.
Inductive t : Type := QUANTIZATION | OTHER (name : string).
End OptimizationMethod.

Module ModelPrecision.
Inductive t : Type := INT8 | OTHER (name : string).
End ModelPrecision.

Module Subset.
Inductive t : Type := TRAINING | OTHER (name : string).
End Subset.

Module Domain.
Inductive t : Type := DETECTION | OTHER (name : string).
End Domain.

(** *** The values the task passes around without looking into them *)

Class Values : Type := {
  (** a Python [float] *)
  Float : Type;
  (** [np.ndarray]: an image, and an output blob of the network *)
  Image : Type;
  Array : Type;
  (** a value of a Python dict: a bool, a number, a string, an enum
      member, a nested dict *)
  PyValue : Type;
  (** the inputs and the metadata a model wrapper's [preprocess] returns,
      and the detections its [postprocess] returns *)
  Inputs : Type;
  Metadata : Type;
  Detections : Type;
  (** [DetectionConfig], [LabelSchemaEntity], [LabelEntity],
      [ScoredLabel], [Annotation] *)
  DetectionConfig : Type;
  LabelSchemaEntity : Type;
  LabelEntity : Type;
  ScoredLabel : Type;
  Annotation : Type;
  (** a saliency map as media of a metadata item *)
  ResultMediaEntity : Type;
  (** the graph of the compression toolkit, and a node of it *)
  Graph : Type;
  Node : Type;
  (** a result set's datasets, and [Performance] *)
  ResultSetData : Type;
  Performance : Type;
}.

Section Task.

Context `{Values}.

(** *** ModelEntity *)

(** What [deploy] asks of the [ZipFile]: [writestr(arcname, data)], which
    stores [data] under [arcname] as given, and [write(filename, arcname)],
    which stores the bytes read from the file under the normalised
    [arcname]. *)
Inductive ZipEntry : Type :=
| Writestr (arcname : string) (data : Bytes)
| Write (arcname : string) (data : Bytes).

(** Modelled from the spec: [ModelEntity] (otx.api.entities.model) is not
    among the sources.  The task reads and writes its data by key
    ([get_data], [set_data], the [model_adapters] of the tests) and
    assigns the attributes below. *)
Record ModelEntity : Type := {
  model_adapters : gmap string Bytes;
  model_format : ModelFormat.t;
  optimization_type : ModelOptimizationType.t;
  optimization_methods : list OptimizationMethod.t;
  precision : list ModelPrecision.t;
  (** the archive whose bytes [exportable_code] holds, [None] before a
      deployment *)
  exportable_code : option (list ZipEntry);
}.

(** [model.get_data(key)]: a key the model does not carry is a
    [KeyError]. *)
Definition get_data (model : ModelEntity) (key : string) : Res Bytes :=
  match model_adapters model !! key with
  | Some data => Ok data
  | None => Raise (KeyError key)
  end.

Definition set_data (key : string) (data : Bytes) (model : ModelEntity) : ModelEntity :=
  {| model_adapters := <[key := data]> (model_adapters model);
     model_format := model_format model;
     optimization_type := optimization_type model;
     optimization_methods := optimization_methods model;
     precision := precision model;
     exportable_code := exportable_code model |}.

Definition set_exportable_code (code : list ZipEntry) (model : ModelEntity) : ModelEntity :=
  {| model_adapters := model_adapters model;
     model_format := model_format model;
     optimization_type := optimization_type model;
     optimization_methods := optimization_methods model;
     precision := precision model;
     exportable_code := Some code |}.

(** The four attribute assignments of [optimize], lines 697-700. *)
Definition set_quantized_attributes (model : ModelEntity) : ModelEntity :=
  {| model_adapters := model_adapters model;
     model_format := ModelFormat.OPENVINO;
     optimization_type := ModelOptimizationType.POT;
     optimization_methods := [OptimizationMethod.QUANTIZATION];
     precision := [ModelPrecision.INT8];
     exportable_code := exportable_code model |}.

(** *** Inferencers *)

(** [OpenvinoAdapter(create_core(), model_file, weight_file, device=...,
    max_num_requests=...)], kept as the arguments it was built from. *)
Record OpenvinoAdapter : Type := {
  model_file : option Bytes;
  weight_file : option Bytes;
  device : string;
  max_num_requests : Z;
}.

(** A model wrapper of the model API, kept as the call that built it:
    [Model.create_model(name, model_adapter, configuration, preload=True)]
    or [Model(model_adapter=adapter, preload=True)]. *)
Inductive Model : Type :=
| Model_create_model (name : string) (model_adapter : OpenvinoAdapter)
    (configuration : gmap string PyValue)
| Model_new (model_adapter : OpenvinoAdapter).

Inductive Converter : Type :=
| DetectionToAnnotationConverter (label_schema : LabelSchemaEntity)
| MaskToAnnotationConverter (label_schema : LabelSchemaEntity)
| RotatedRectToAnnotationConverter (label_schema : LabelSchemaEntity).

(** [Tiler(tile_size=..., overlap=..., max_number=..., detector=...,
    classifier=..., mode=..., segm=...)]. *)
Record Tiler : Type := {
  tile_size : PyValue;
  overlap : PyValue;
  max_number : PyValue;
  detector : Model;
  classifier : option Model;
  mode : string;
  segm : bool;
}.

(** The four subclasses of [BaseInferencerWithConverter]; the wrapper is
    the one with a [tiler] attribute. *)
Inductive InferencerClass : Type :=
| OpenVINODetectionInferencer
| OpenVINOMaskInferencer
| OpenVINORotatedRectInferencer
| OpenVINOTileClassifierWrapper (tiler : Tiler).

(** An inferencer object: its class and the three attributes
    [BaseInferencerWithConverter.__init__] sets. *)
Record Inferencer : Type := {
  class_ : InferencerClass;
  configuration : gmap string PyValue;
  inferencer_model : Model;
  converter : Converter;
}.

(** *** Datasets *)

Record AnnotationSceneEntity : Type := {
  annotations : list Annotation;
}.

Inductive MetadataData : Type :=
| TensorEntity (name : string) (numpy : Array)
| SaliencyMedia (media : ResultMediaEntity).

Record MetadataItemEntity : Type := {
  data : MetadataData;
  metadata_model : option ModelEntity;
}.

(** Modelled from the spec: [DatasetItemEntity] and [DatasetEntity]
    (otx.api.entities) are not among the sources.  An item has an image
    ([numpy]), an annotation scene and metadata items; a dataset is the
    sequence of its items. *)
Record DatasetItemEntity : Type := {
  item_numpy : Image;
  annotation_scene : AnnotationSceneEntity;
  item_metadata : list MetadataItemEntity;
}.

Abbreviation DatasetEntity := (list DatasetItemEntity) (only parsing).

Record InferenceParameters : Type := {
  is_evaluation : bool;
  process_saliency_maps : bool;
  explain_predicted_classes : bool;
}.

Record ResultSetEntity : Type := {
  result_data : ResultSetData;
  performance : Performance;
}.

(** *** The task object *)

(** [self.config]: the [ADDict] of [load_config].  The task only reads and
    writes its [tiling_parameters] group. *)
Record Config : Type := {
  tiling_parameters : gmap string PyValue;
  other_parameters : gmap string PyValue;
}.

Record TaskEnvironment : Type := {
  hyper_parameters : DetectionConfig;
  label_schema : LabelSchemaEntity;
  labels : list LabelEntity;
}.

Record Task : Type := {
  task_environment : TaskEnvironment;
  model : option ModelEntity;
  task_type : TaskType.t;
  confidence_threshold : Float;
  config : Config;
  inferencer : Inferencer;
}.

Definition hparams (self : Task) : DetectionConfig :=
  hyper_parameters (task_environment self).

(** The [parameters] dict of [deploy]. *)
Record DeployParameters : Type := {
  type_of_model : string;
  converter_type : string;
  model_parameters : gmap string PyValue;
  deploy_tiling_parameters : gmap string PyValue;
}.

(** *** Post-training quantization: the objects handed to the toolkit *)

Record OTXOpenVinoDataLoader : Type := {
  dataset : DatasetEntity;
  loader_inferencer : Inferencer;
}.

Record EngineConfig : Type := {
  engine_device : string;
  stat_requests_number : Z;
}.

Record Algorithm : Type := {
  algorithm_name : string;
  target_device : string;
  preset : string;
  stat_subset_size : Z;
  shuffle_data : bool;
}.

Record IEEngine : Type := {
  engine_config : EngineConfig;
  data_loader : OTXOpenVinoDataLoader;
}.

(** [logger.warning]; the [logger.info] lines of the task carry no state
    and are left out. *)
Inductive LogRecord : Type :=
| Warning (msg : string) (detail : option Exception).

(** *** The libraries behind the task

    numpy, json, os and zipfile; otx.api (configuration helpers, label
    mapping, metrics, dataset utilities); the model API and the tiler; the
    compression toolkit.  A call that reads data it may not find, parses,
    or runs a pipeline may raise; a pure conversion does not. *)
Class External : Type := {
  (** [np.array([x], dtype=np.float32).tobytes()]: four bytes *)
  float32_tobytes : Float -> Bytes;
  float32_tobytes_length : forall x, length (float32_tobytes x) = 4;
  (** [float(np.frombuffer(data, dtype=np.float32)[0])] *)
  frombuffer_float32 : Bytes -> Res Float;
  (** [a.reshape(-1)], [a[0]], [a.shape[0]] *)
  reshape_flat : Array -> Array;
  first_row : Array -> Array;
  shape0 : Array -> nat;
  (** truth value of a Python value, and [str(v)] *)
  truthy : PyValue -> bool;
  py_str : PyValue -> PyValue;
  (** the empty [ADDict] that a missing attribute reads as *)
  empty_ADDict : PyValue;
  truthy_empty_ADDict : truthy empty_ADDict = false;
  json_loads : Bytes -> Res PyValue;
  json_dumps : DeployParameters -> Res string;
  cpu_count : Z;
  (** [os.walk(top)]: each directory with its files; [open(path).read()];
      the arcname [ZipFile.write] stores for the one it is given *)
  os_walk : string -> list (string * list string);
  read_file : string -> Res Bytes;
  zip_arcname : string -> string;
  (** [os.path.dirname(model_wrappers.__file__)] and
      [os.path.dirname(demo.__file__)] *)
  model_wrappers_dir : string;
  demo_dir : string;
  (** otx.api.configuration.helper.utils.  The three helpers work on the
      dict they are given in place: they leave it in a new state, whether
      they return or raise. *)
  vars_ : DetectionConfig -> PyValue;
  flatten_detection_config_groups : M PyValue unit;
  flatten_config_values : M PyValue unit;
  merge_a_into_b : PyValue -> M PyValue PyValue;
  ADDict : PyValue -> Config;
  config_to_bytes : DetectionConfig -> Bytes;
  (** otx.api: labels, hyper-parameters, enum names *)
  label_schema_to_bytes : LabelSchemaEntity -> Bytes;
  LabelSchemaMapper_forward : LabelSchemaEntity -> PyValue;
  new_LabelEntity : string -> Domain.t -> LabelEntity;
  get_labels : Annotation -> list ScoredLabel;
  postprocessing_asdict : DetectionConfig -> gmap string PyValue;
  set_postprocessing_confidence_threshold : Float -> DetectionConfig -> DetectionConfig;
  pot_stat_requests_number : DetectionConfig -> Z;
  pot_stat_subset_size : DetectionConfig -> Z;
  pot_preset_name_lower : DetectionConfig -> string;
  str_TaskType : TaskType.t -> string;
  get_subset : DatasetEntity -> Subset.t -> DatasetEntity;
  (** [MetricsHelper.compute_f_measure(resultset).get_performance()] *)
  compute_f_measure : ResultSetEntity -> Res Performance;
  (** the media [add_saliency_maps_to_dataset_item] makes of a saliency
      map for an item *)
  saliency_media :
    DatasetItemEntity -> Array -> list LabelEntity -> list ScoredLabel ->
    bool -> bool -> list ResultMediaEntity;
  (** the model API: a wrapper's [__model__], [preprocess], [infer_sync],
      [postprocess]; the converters; [Tiler.predict] *)
  dunder_model : Model -> string;
  model_preprocess : Model -> Image -> Inputs * Metadata;
  model_infer_sync : Model -> Inputs -> gmap string Array;
  model_postprocess : Model -> gmap string Array -> Metadata -> Detections;
  detection2array : Detections -> Detections;
  convert_to_annotation : Converter -> Detections -> Metadata -> AnnotationSceneEntity;
  original_shape : Image -> Metadata;
  tiler_predict : Tiler -> Image -> string -> Detections * (option Array * option Array);
  (** the compression toolkit: [load_model], [get_nodes_by_type],
      [create_pipeline(algorithms, engine).run(model)],
      [compress_model_weights], [save_model] and the two files it writes *)
  load_model : Bytes -> Bytes -> Res Graph;
  get_nodes_by_type : Graph -> list string -> list Node;
  pipeline_run : list Algorithm -> IEEngine -> Graph -> Res Graph;
  compress_model_weights : Graph -> Res Graph;
  save_model : Graph -> Res (Bytes * Bytes);
}.

Context `{External}.

(** *** Python built-ins the task uses on strings and paths *)

(** [os.path.join(a, *p)] of posixpath. *)
Fixpoint os_path_join (a : string) (p : list string) : string :=
  match p with
  | [] => a
  | b :: p' =>
      let endswith_sep :=
        bool_decide (String.get (String.length a - 1) a = Some "/"%char) in
      let path :=
        if String.prefix "/" b then b
        else if bool_decide (a = "") || endswith_sep then a +:+ b
        else a +:+ "/" +:+ b in
      os_path_join path p'
  end.

(** [s.split(sep)] for a non-empty [sep]; [skip] counts the characters of
    a separator still to pass, [cur] is the piece read so far. *)
Fixpoint str_split_from (sep : string) (skip : nat) (cur s : string) : list string :=
  match s with
  | EmptyString => [cur]
  | String c s' =>
      match skip with
      | S k => str_split_from sep k cur s'
      | O =>
          if String.prefix sep s
          then cur :: str_split_from sep (String.length sep - 1) "" s'
          else str_split_from sep 0 (cur +:+ String c "") s'
      end
  end.

Definition str_split (s sep : string) : list string := str_split_from sep 0 "" s.

(** [l[i]] for a list, [IndexError] out of range. *)
Definition list_getitem {A} (l : list A) (i : Z) : Res A :=
  let n := Z.of_nat (length l) in
  let j := if (i <? 0)%Z then (i + n)%Z else i in
  if (0 <=? j)%Z && (j <? n)%Z
  then match l !! Z.to_nat j with Some x => Ok x | None => Raise IndexError end
  else Raise IndexError.

(** [d.k] for an [ADDict]: a missing attribute reads as an empty
    [ADDict]. *)
Definition getattr (d : gmap string PyValue) (k : string) : PyValue :=
  default empty_ADDict (d !! k).

(** *** BaseInferencerWithConverter and its subclasses *)

(** The adapter every inferencer builds, with the defaults [device="CPU"]
    and [num_requests=1] of the constructors. *)
Definition new_adapter (model_file weight_file : option Bytes) : OpenvinoAdapter :=
  {| model_file := model_file; weight_file := weight_file;
     device := "CPU"; max_num_requests := 1 |}.

Definition OpenVINODetectionInferencer_init (hparams : DetectionConfig)
    (label_schema : LabelSchemaEntity) (model_file weight_file : option Bytes) : Inferencer :=
  let model_adapter := new_adapter model_file weight_file in
  let configuration := postprocessing_asdict hparams in
  let model := Model_create_model "OTX_SSD" model_adapter configuration in
  let converter := DetectionToAnnotationConverter label_schema in
  {| class_ := OpenVINODetectionInferencer; configuration := configuration;
     inferencer_model := model; converter := converter |}.

Definition OpenVINOMaskInferencer_init (hparams : DetectionConfig)
    (label_schema : LabelSchemaEntity) (model_file weight_file : option Bytes) : Inferencer :=
  let model_adapter := new_adapter model_file weight_file in
  let configuration := postprocessing_asdict hparams in
  let model := Model_create_model "OTX_MaskRCNN" model_adapter configuration in
  let converter := MaskToAnnotationConverter label_schema in
  {| class_ := OpenVINOMaskInferencer; configuration := configuration;
     inferencer_model := model; converter := converter |}.

Definition OpenVINORotatedRectInferencer_init (hparams : DetectionConfig)
    (label_schema : LabelSchemaEntity) (model_file weight_file : option Bytes) : Inferencer :=
  let model_adapter := new_adapter model_file weight_file in
  let configuration := postprocessing_asdict hparams in
  let model := Model_create_model "OTX_MaskRCNN" model_adapter configuration in
  let converter := RotatedRectToAnnotationConverter label_schema in
  {| class_ := OpenVINORotatedRectInferencer; configuration := configuration;
     inferencer_model := model; converter := converter |}.

(** [OpenVINOTileClassifierWrapper.__init__]. *)
Definition OpenVINOTileClassifierWrapper_init (inferencer : Inferencer)
    (tile_size overlap max_number : PyValue)
    (tile_classifier_model_file tile_classifier_weight_file : option Bytes)
    (mode : string) : Res Inferencer :=
  if bool_decide (mode ∈ ["async"; "sync"]) then
    let classifier :=
      if bool_decide (tile_classifier_model_file <> None)
         || bool_decide (tile_classifier_weight_file <> None)
      then Some (Model_new (new_adapter tile_classifier_model_file tile_classifier_weight_file))
      else None in
    let tiler :=
      {| tile_size := tile_size; overlap := overlap; max_number := max_number;
         detector := inferencer_model inferencer; classifier := classifier;
         mode := mode;
         segm := match converter inferencer with
                 | MaskToAnnotationConverter _ | RotatedRectToAnnotationConverter _ => true
                 | DetectionToAnnotationConverter _ => false
                 end |} in
    Ok {| class_ := OpenVINOTileClassifierWrapper tiler;
          configuration := configuration inferencer;
          inferencer_model := inferencer_model inferencer;
          converter := converter inferencer |}
  else Raise (AssertionError "mode should be async or sync").

Definition pre_process (self : Inferencer) (image : Image) : Inputs * Metadata :=
  model_preprocess (inferencer_model self) image.

(** [post_process]: the detection inferencer overrides it to pass the
    detections through [detection2array]. *)
Definition post_process (self : Inferencer) (prediction : gmap string Array)
    (metadata : Metadata) : AnnotationSceneEntity :=
  let detections := model_postprocess (inferencer_model self) prediction metadata in
  match class_ self with
  | OpenVINODetectionInferencer =>
      convert_to_annotation (converter self) (detection2array detections) metadata
  | _ => convert_to_annotation (converter self) detections metadata
  end.

Definition forward (self : Inferencer) (image : Inputs) : gmap string Array :=
  model_infer_sync (inferencer_model self) image.

(** [predict]: the wrapper overrides it to go through its tiler. *)
Definition predict (self : Inferencer) (image : Image)
    : AnnotationSceneEntity * (option Array * option Array) :=
  match class_ self with
  | OpenVINOTileClassifierWrapper tiler =>
      let '(detections, features) := tiler_predict tiler image "async" in
      let detections :=
        convert_to_annotation (converter self) detections (original_shape image) in
      (detections, features)
  | _ =>
      let '(image', metadata) := pre_process self image in
      let raw_predictions := forward self image' in
      let predictions := post_process self raw_predictions metadata in
      let features :=
        match raw_predictions !! "feature_vector", raw_predictions !! "saliency_map" with
        | Some feature_vector, Some saliency_map =>
            (Some (reshape_flat feature_vector), Some (first_row saliency_map))
        | _, _ => (None, None)
        end in
      (predictions, features)
  end.

(** *** OTXOpenVinoDataLoader *)

Definition __getitem__ (self : OTXOpenVinoDataLoader) (index : Z)
    : Res ((Z * AnnotationSceneEntity) * Inputs * Metadata) :=
  item ← list_getitem (dataset self) index;
  let image := item_numpy item in
  item' ← list_getitem (dataset self) index;
  let annotation := annotation_scene item' in
  let '(inputs, metadata) := pre_process (loader_inferencer self) image in
  Ok ((index, annotation), inputs, metadata).

Definition __len__ (self : OTXOpenVinoDataLoader) : nat := length (dataset self).

(** *** OpenVINODetectionTask: attribute assignments *)

Definition set_model (model' : option ModelEntity) (self : Task) : Task :=
  {| task_environment := task_environment self; model := model';
     task_type := task_type self; confidence_threshold := confidence_threshold self;
     config := config self; inferencer := inferencer self |}.

Definition set_confidence_threshold (threshold : Float) (self : Task) : Task :=
  {| task_environment := task_environment self; model := model self;
     task_type := task_type self; confidence_threshold := threshold;
     config := config self; inferencer := inferencer self |}.

Definition set_config (config' : Config) (self : Task) : Task :=
  {| task_environment := task_environment self; model := model self;
     task_type := task_type self; confidence_threshold := confidence_threshold self;
     config := config'; inferencer := inferencer self |}.

Definition set_inferencer (inferencer' : Inferencer) (self : Task) : Task :=
  {| task_environment := task_environment self; model := model self;
     task_type := task_type self; confidence_threshold := confidence_threshold self;
     config := config self; inferencer := inferencer' |}.

Definition set_configuration (configuration' : gmap string PyValue)
    (self : Inferencer) : Inferencer :=
  {| class_ := class_ self; configuration := configuration';
     inferencer_model := inferencer_model self; converter := converter self |}.

Definition set_tiling_parameters (tiling_parameters' : gmap string PyValue)
    (self : Config) : Config :=
  {| tiling_parameters := tiling_parameters';
     other_parameters := other_parameters self |}.

(** Truth value of [bytes]: empty is false. *)
Definition bytes_truthy (data : Bytes) : bool :=
  match data with [] => false | _ :: _ => true end.

(** *** load_config *)

(** The [try] block: the value [config] is bound to when the block is
    left, and the exception the [except] clause caught, if any.  When
    [merge_a_into_b] raises, [config] is still the dict it was given, in
    the state it left it. *)
Definition load_config_try (self : Task) (config : PyValue) : PyValue * option Exception :=
  match model self with
  | None => (config, None)
  | Some model =>
      match get_data model "config.json" with
      | Raise e => (config, Some e)
      | Ok data =>
          if bytes_truthy data then
            match data' ← get_data model "config.json"; json_loads data' with
            | Raise e => (config, Some e)
            | Ok json_dict =>
                match flatten_config_values json_dict with
                | (Raise e, _) => (config, Some e)
                | (Ok _, json_dict') =>
                    match merge_a_into_b json_dict' config with
                    | (Ok merged, _) => (merged, None)
                    | (Raise e, config') => (config', Some e)
                    end
                end
            end
          else (config, None)
      end
  end.

Definition load_config (self : Task) : Res Config * list LogRecord :=
  let config := vars_ (hparams self) in
  match flatten_detection_config_groups config with
  | (Raise e, _) => (Raise e, [])
  | (Ok _, config) =>
      let '(config, caught) := load_config_try self config in
      (Ok (ADDict config),
       match caught with
       | Some e => [Warning "Failed to load config.json: " (Some e)]
       | None => []
       end)
  end.

(** *** load_inferencer *)

(** The local variable [inferencer] is [None] while it is unbound. *)
Definition load_inferencer : M Task Inferencer :=
  self ← read id;
  match model self with
  | None => raise (RuntimeError "load_inferencer failed, model is None")
  | Some model =>
      let _hparams := hparams self in
      threshold ← call (data ← get_data model "confidence_threshold"; frombuffer_float32 data);
      update (set_confidence_threshold threshold);;
      let _hparams := set_postprocessing_confidence_threshold threshold _hparams in
      let label_schema := label_schema (task_environment self) in
      xml ← call (get_data model "openvino.xml");
      bin ← call (get_data model "openvino.bin");
      let inferencer : option Inferencer := None in
      let inferencer :=
        if decide (task_type self = TaskType.DETECTION)
        then Some (OpenVINODetectionInferencer_init _hparams label_schema (Some xml) (Some bin))
        else inferencer in
      let inferencer :=
        if decide (task_type self = TaskType.INSTANCE_SEGMENTATION)
        then Some (OpenVINOMaskInferencer_init _hparams label_schema (Some xml) (Some bin))
        else inferencer in
      let inferencer :=
        if decide (task_type self = TaskType.ROTATED_DETECTION)
        then Some (OpenVINORotatedRectInferencer_init _hparams label_schema (Some xml) (Some bin))
        else inferencer in
      let tiling_parameters := tiling_parameters (config self) in
      inferencer ←
        (if truthy (getattr tiling_parameters "enable_tiling") then
           files ←
             (if truthy (getattr tiling_parameters "enable_tile_classifier") then
                tile_classifier_model_file ← call (get_data model "tile_classifier.xml");
                tile_classifier_weight_file ← call (get_data model "tile_classifier.bin");
                mret (Some tile_classifier_model_file, Some tile_classifier_weight_file)
              else mret (None, None));
           inner ←
             match inferencer with
             | Some inferencer => mret inferencer
             | None => raise (UnboundLocalError "inferencer")
             end;
           wrapper ← call (OpenVINOTileClassifierWrapper_init inner
                             (getattr tiling_parameters "tile_size")
                             (getattr tiling_parameters "tile_overlap")
                             (getattr tiling_parameters "tile_max_number")
                             files.1 files.2 "async");
           mret (Some wrapper)
         else mret inferencer);
      (* every [Inferencer] is an instance of one of the four classes, so
         the [isinstance] test can only fail on the unbound variable *)
      match inferencer with
      | Some inferencer => mret inferencer
      | None => raise (UnboundLocalError "inferencer")
      end
  end.

(** *** infer *)

(** Modelled from the spec: the methods of [DatasetItemEntity] and
    [add_saliency_maps_to_dataset_item] (otx.api) are not among the
    sources.  [append_annotations] adds the annotations at the end of the
    item's annotation scene, [append_metadata_item] adds one metadata item
    at the end of the item's metadata, and
    [add_saliency_maps_to_dataset_item] appends one metadata item for each
    saliency map it makes. *)
Definition append_annotations (new : list Annotation) (self : DatasetItemEntity)
    : DatasetItemEntity :=
  {| item_numpy := item_numpy self;
     annotation_scene := {| annotations := annotations (annotation_scene self) ++ new |};
     item_metadata := item_metadata self |}.

Definition append_metadata_item (data' : MetadataData) (model' : option ModelEntity)
    (self : DatasetItemEntity) : DatasetItemEntity :=
  {| item_numpy := item_numpy self;
     annotation_scene := annotation_scene self;
     item_metadata :=
       item_metadata self ++ [{| data := data'; metadata_model := model' |}] |}.

Definition add_saliency_maps_to_dataset_item (dataset_item : DatasetItemEntity)
    (saliency_map : Array) (model' : option ModelEntity) (labels' : list LabelEntity)
    (predicted_scored_labels : list ScoredLabel)
    (explain_predicted_classes' process_saliency_maps' : bool) : DatasetItemEntity :=
  foldl (fun item media => append_metadata_item (SaliencyMedia media) model' item)
    dataset_item
    (saliency_media dataset_item saliency_map labels' predicted_scored_labels
       explain_predicted_classes' process_saliency_maps').

(** The body of the loop of [infer] for one item; the progress callback
    and the timer are left out. *)
Definition infer_item (self : Task)
    (add_saliency_map process_saliency_maps' explain_predicted_classes' : bool)
    (dataset_item : DatasetItemEntity) : DatasetItemEntity :=
  let '(predicted_scene, features) := predict (inferencer self) (item_numpy dataset_item) in
  let dataset_item := append_annotations (annotations predicted_scene) dataset_item in
  let '(feature_vector, saliency_map) := features in
  let dataset_item :=
    match feature_vector with
    | Some feature_vector =>
        let representation_vector :=
          TensorEntity "representation_vector" (reshape_flat feature_vector) in
        append_metadata_item representation_vector (model self) dataset_item
    | None => dataset_item
    end in
  match saliency_map with
  | Some saliency_map =>
      if add_saliency_map then
        let labels' := labels (task_environment self) in
        let labels' :=
          if bool_decide (shape0 saliency_map = length labels' + 1)
          then labels' ++ [new_LabelEntity "background" Domain.DETECTION]
          else labels' in
        let predicted_scored_labels :=
          mjoin (map get_labels (annotations predicted_scene)) in
        add_saliency_maps_to_dataset_item dataset_item saliency_map (model self) labels'
          predicted_scored_labels explain_predicted_classes' process_saliency_maps'
      else dataset_item
  | None => dataset_item
  end.

(** [infer] works on the dataset it is given and returns that object.
    After the loop it logs [total_time / len(dataset)], a float division
    that is evaluated whatever the log level. *)
Definition infer (self : Task) (inference_parameters : option InferenceParameters)
    : M DatasetEntity unit :=
  let '(add_saliency_map, process_saliency_maps', explain_predicted_classes') :=
    match inference_parameters with
    | Some p => (negb (is_evaluation p), process_saliency_maps p, explain_predicted_classes p)
    | None => (true, false, true)
    end in
  update (map (infer_item self add_saliency_map process_saliency_maps'
                 explain_predicted_classes'));;
  dataset ← read id;
  if bool_decide (length dataset = 0) then raise ZeroDivisionError
  else mret tt.

(** *** evaluate *)



(** *** deploy *)

(** The body of the loop over [os.walk] for one file: it is stored under
    python/model_wrappers/ and what follows "model_wrappers/" in its
    path. *)
Definition package_model_wrapper_file (root file : string) : Res ZipEntry :=
  let file_path := os_path_join root [file] in
  rel ← match str_split file_path "model_wrappers/" !! 1 with
        | Some rel => Ok rel
        | None => Raise IndexError
        end;
  let arcname := os_path_join "python" ["model_wrappers"; rel] in
  data' ← read_file file_path;
  Ok (Write (zip_arcname arcname) data').

Definition package_model_wrappers : Res (list ZipEntry) :=
  match for_in (fun walked : string * list string =>
                  for_in (package_model_wrapper_file walked.1) walked.2)
               (os_walk model_wrappers_dir) with
  | Ok entries => Ok (concat entries)
  | Raise e => Raise e
  end.

(** [arch.write(os.path.join(work_dir, name), os.path.join("python", name))]. *)
Definition package_python_file (work_dir name : string) : Res ZipEntry :=
  data' ← read_file (os_path_join work_dir [name]);
  Ok (Write (zip_arcname (os_path_join "python" [name])) data').

(** The body of the [with ZipFile(zip_buffer, "w") as arch] block: the
    entries written, in order. *)
Definition deploy_archive (self : Task) (parameters : DeployParameters)
    : Res (list ZipEntry) :=
  match model self with
  | None => Raise (ValueError "Deploy failed, model is None")
  | Some model =>
      xml ← get_data model "openvino.xml";
      bin ← get_data model "openvino.bin";
      let tiling_parameters := tiling_parameters (config self) in
      tile_classifier ←
        (if truthy (getattr tiling_parameters "enable_tiling")
            && truthy (getattr tiling_parameters "enable_tile_classifier")
         then
           tile_xml ← get_data model "tile_classifier.xml";
           tile_bin ← get_data model "tile_classifier.bin";
           Ok [Writestr (os_path_join "model" ["tile_classifier.xml"]) tile_xml;
               Writestr (os_path_join "model" ["tile_classifier.bin"]) tile_bin]
         else Ok []);
      config_json ← json_dumps parameters;
      model_wrappers ← package_model_wrappers;
      let work_dir := demo_dir in
      requirements ← package_python_file work_dir "requirements.txt";
      license ← package_python_file work_dir "LICENSE";
      readme ← package_python_file work_dir "README.md";
      demo ← package_python_file work_dir "demo.py";
      Ok ([Writestr (os_path_join "model" ["model.xml"]) xml;
           Writestr (os_path_join "model" ["model.bin"]) bin]
          ++ tile_classifier
          ++ [Writestr (os_path_join "model" ["config.json"])
                (String.list_byte_of_string config_json)]
          ++ model_wrappers
          ++ [requirements; license; readme; demo])
  end.

(** Lines 567-568: a truthy [type] of the tiling parameters is replaced by
    its string. *)
Definition stringify_type (tiling_parameters' : gmap string PyValue)
    : gmap string PyValue :=
  match tiling_parameters' !! "type" with
  | Some type =>
      if truthy type then <["type" := py_str type]> tiling_parameters'
      else tiling_parameters'
  | None => tiling_parameters'
  end.

(** The [parameters] dict, lines 562-569. *)
Definition deploy_parameters (self : Task) : DeployParameters :=
  {| type_of_model := dunder_model (inferencer_model (inferencer self));
     converter_type := str_TaskType (task_type self);
     model_parameters :=
       <["labels" := LabelSchemaMapper_forward (label_schema (task_environment self))]>
         (configuration (inferencer self));
     deploy_tiling_parameters := stringify_type (tiling_parameters (config self)) |}.

(** [deploy(output_model)].  [parameters["model_parameters"]] is the
    inferencer's [configuration] dict itself and
    [parameters["tiling_parameters"]] is [self.config.tiling_parameters]
    itself, so what is written into [parameters] is written into the
    task. *)
Definition deploy : M (Task * ModelEntity) unit :=
  self ← read fst;
  let parameters := deploy_parameters self in
  let self :=
    set_config (set_tiling_parameters (deploy_tiling_parameters parameters) (config self))
      (set_inferencer
         (set_configuration (model_parameters parameters) (inferencer self)) self) in
  update (fun s : Task * ModelEntity => (self, s.2));;
  arch ← call (deploy_archive self parameters);
  update (fun s : Task * ModelEntity => (s.1, set_exportable_code arch s.2)).

(** *** optimize *)

(** A method of the task run where the task and the output model are both
    at hand. *)
Definition on_task {A} (m : M Task A) : M (Task * ModelEntity) A :=
  fun s => let '(r, self) := m s.1 in (r, (self, s.2)).

Definition on_output_model (f : ModelEntity -> ModelEntity) : M (Task * ModelEntity) unit :=
  update (fun s : Task * ModelEntity => (s.1, f s.2)).

(** [optimize(optimization_type, dataset, output_model,
    optimization_parameters)]; the progress callbacks of
    [optimization_parameters] are left out. *)
Definition optimize (optimization_type' : OptimizationType.t) (dataset' : DatasetEntity)
    : M (Task * ModelEntity) unit :=
  self ← read fst;
  if decide (optimization_type' <> OptimizationType.POT) then
    raise (ValueError "POT is the only supported optimization type for OpenVino models")
  else
    match model self with
    | None => raise (RuntimeError "Optimize failed, model is None")
    | Some model =>
        let dataset' := get_subset dataset' Subset.TRAINING in
        let data_loader' := {| dataset := dataset'; loader_inferencer := inferencer self |} in
        graph ← call (xml ← get_data model "openvino.xml";
                      bin ← get_data model "openvino.bin";
                      load_model xml bin);
        match get_nodes_by_type graph ["FakeQuantize"] with
        | _ :: _ => raise (RuntimeError "Model is already optimized by POT")
        | [] =>
            let engine_config' :=
              {| engine_device := "CPU";
                 stat_requests_number :=
                   Z.min (pot_stat_requests_number (hparams self)) cpu_count |} in
            let stat_subset_size' := pot_stat_subset_size (hparams self) in
            let preset' := pot_preset_name_lower (hparams self) in
            let algorithms :=
              [ {| algorithm_name := "DefaultQuantization";
                   target_device := "ANY";
                   preset := preset';
                   stat_subset_size :=
                     Z.min stat_subset_size' (Z.of_nat (__len__ data_loader'));
                   shuffle_data := true |} ] in
            let engine := {| engine_config := engine_config'; data_loader := data_loader' |} in
            compressed_model ← call (pipeline_run algorithms engine graph);
            compressed_model ← call (compress_model_weights compressed_model);
            saved ← call (save_model compressed_model);
            on_output_model (set_data "openvino.xml" saved.1);;
            on_output_model (set_data "openvino.bin" saved.2);;
            on_output_model (set_data "confidence_threshold"
                               (float32_tobytes (confidence_threshold self)));;
            on_output_model (set_data "label_schema.json"
                               (label_schema_to_bytes (label_schema (task_environment self))));;
            on_output_model (set_data "config.json" (config_to_bytes (hparams self)));;
            on_output_model set_quantized_attributes;;
            (* self.model = output_model *)
            update (fun s : Task * ModelEntity => (set_model (Some s.2) s.1, s.2));;
            inferencer' ← on_task load_inferencer;
            update (fun s : Task * ModelEntity => (set_inferencer inferencer' s.1, s.2))
        end
    end.

(** *** The built-ins on concrete inputs *)

Example os_path_join_model_xml :
  os_path_join "model" ["model.xml"] = "model/model.xml" /\
  os_path_join "python" ["model_wrappers"; "openvino_models.py"]
    = "python/model_wrappers/openvino_models.py" /\
  os_path_join "python/" ["/abs"; "x"] = "/abs/x".
Proof. repeat split; reflexivity. Qed.

Example str_split_model_wrappers :
  str_split "/otx/model_wrappers/openvino_models.py" "model_wrappers/"
    = ["/otx/"; "openvino_models.py"] /\
  str_split "/otx/openvino_models.py" "model_wrappers/" = ["/otx/openvino_models.py"] /\
  str_split "a--b--" "--" = ["a"; "b"; ""].
Proof. repeat split; reflexivity. Qed.

Example list_getitem_indices :
  list_getitem [10; 20; 30] 0 = Ok 10 /\
  list_getitem [10; 20; 30] (-1) = Ok 30 /\
  list_getitem [10; 20; 30] 3 = Raise IndexError /\
  list_getitem [10; 20; 30] (-4) = Raise IndexError.
Proof. repeat split; reflexivity. Qed.

(** *** Properties of the data loader *)


(** [dataset[i]] for an index in range. *)
Lemma list_getitem_lookup {A} (l : list A) (i : nat) (x : A) :
  l !! i = Some x -> list_getitem l (Z.of_nat i) = Ok x.
Proof.
  intros Hx. pose proof (lookup_lt_Some _ _ _ Hx) as Hlt.
  unfold list_getitem.
  destruct (Z.of_nat i <? 0)%Z eqn:Hneg; [apply Z.ltb_lt in Hneg; lia |].
  rewrite (proj2 (Z.leb_le 0 (Z.of_nat i))) by lia.
  rewrite (proj2 (Z.ltb_lt (Z.of_nat i) (Z.of_nat (length l)))) by lia.
  cbn. by rewrite Nat2Z.id, Hx.
Qed.

(** *** Properties of evaluate *)


(** *** Properties of infer *)

(** C8, at the empty dataset.  [infer] does not return the dataset it was
    given: the loop runs no iteration and the average time per image
    divides by [len(dataset) = 0]. *)
Theorem infer_empty_dataset_raises (self : Task)
    (inference_parameters : option InferenceParameters) :
  infer self inference_parameters [] = (Raise ZeroDivisionError, []).
Proof.
  unfold infer.
  destruct inference_parameters as [p |]; reflexivity.
Qed.

(** Away from the empty dataset the loop only appends to each item: the
    predicted annotations to its annotation scene, and metadata items to
    its metadata, none when the prediction has no feature vector and no
    saliency map. *)
Lemma add_saliency_maps_to_dataset_item_appends (dataset_item : DatasetItemEntity)
    (saliency_map : Array) (model' : option ModelEntity) (labels' : list LabelEntity)
    (predicted_scored_labels : list ScoredLabel) (explain' process' : bool) :
  let item' :=
    add_saliency_maps_to_dataset_item dataset_item saliency_map model' labels'
      predicted_scored_labels explain' process' in
  item_numpy item' = item_numpy dataset_item /\
  annotation_scene item' = annotation_scene dataset_item /\
  exists added, item_metadata item' = item_metadata dataset_item ++ added.
Proof.
  unfold add_saliency_maps_to_dataset_item.
  generalize (saliency_media dataset_item saliency_map labels' predicted_scored_labels
                explain' process').
  intros media. revert dataset_item.
  induction media as [| m media IH]; intros dataset_item; cbn.
  - split; [done |]. split; [done |]. exists []. by rewrite app_nil_r.
  - destruct (IH (append_metadata_item (SaliencyMedia m) model' dataset_item))
      as (Himage & Hscene & added & Hadded).
    split; [by rewrite Himage |]. split; [by rewrite Hscene |].
    exists ({| data := SaliencyMedia m; metadata_model := model' |} :: added).
    rewrite Hadded. cbn. by rewrite <- app_assoc.
Qed.

Lemma infer_item_appends (self : Task) (add_saliency_map process' explain' : bool)
    (dataset_item : DatasetItemEntity) :
  let item' := infer_item self add_saliency_map process' explain' dataset_item in
  let prediction := predict (inferencer self) (item_numpy dataset_item) in
  item_numpy item' = item_numpy dataset_item /\
  annotations (annotation_scene item') =
    annotations (annotation_scene dataset_item) ++ annotations prediction.1 /\
  exists added,
    item_metadata item' = item_metadata dataset_item ++ added /\
    (prediction.2 = (None, None) -> added = []).
Proof.
  unfold infer_item.
  destruct (predict (inferencer self) (item_numpy dataset_item))
    as [predicted_scene [feature_vector saliency_map]]. cbn.
  destruct saliency_map as [saliency_map |]; [destruct add_saliency_map |].
  - match goal with
    | |- context [add_saliency_maps_to_dataset_item ?i ?s ?m ?l ?p ?e ?q] =>
        destruct (add_saliency_maps_to_dataset_item_appends i s m l p e q)
          as (Himage & Hscene & added & Hadded)
    end.
    rewrite Himage, Hscene, Hadded.
    destruct feature_vector; cbn;
      (split; [done |]; split; [done |]; eexists; split;
       [by rewrite <- ?app_assoc | by intros [=]]).
  - destruct feature_vector; cbn; (split; [done |]; split; [done |]).
    + eexists. split; [done | by intros [=]].
    + exists []. split; [by rewrite app_nil_r | done].
  - destruct feature_vector; cbn; (split; [done |]; split; [done |]).
    + eexists. split; [done | by intros [=]].
    + exists []. split; [by rewrite app_nil_r | done].
Qed.

(** For a dataset that is not empty [infer] returns, and the dataset has
    the items it had, each in the state [infer_item] leaves it in. *)
Lemma infer_nonempty_dataset (self : Task)
    (inference_parameters : option InferenceParameters) (dataset' : DatasetEntity) :
  dataset' <> [] ->
  exists add_saliency_map process' explain',
    infer self inference_parameters dataset' =
    (Ok tt, map (infer_item self add_saliency_map process' explain') dataset') /\
    length (map (infer_item self add_saliency_map process' explain') dataset')
      = length dataset'.
Proof.
  intros Hne. unfold infer.
  destruct inference_parameters as [p |]; do 3 eexists;
    (split; [| apply length_map]);
    cbv [mbind M_bind update read id]; cbn;
    (destruct dataset'; [done | reflexivity]).
Qed.

(** *** Properties of load_inferencer *)

(** The inferencer of a task type, for the three task types the task
    serves. *)
Definition inferencer_of_task_type (task_type' : TaskType.t) (hparams' : DetectionConfig)
    (label_schema' : LabelSchemaEntity) (xml bin : Bytes) : option Inferencer :=
  match task_type' with
  | TaskType.DETECTION =>
      Some (OpenVINODetectionInferencer_init hparams' label_schema' (Some xml) (Some bin))
  | TaskType.INSTANCE_SEGMENTATION =>
      Some (OpenVINOMaskInferencer_init hparams' label_schema' (Some xml) (Some bin))
  | TaskType.ROTATED_DETECTION =>
      Some (OpenVINORotatedRectInferencer_init hparams' label_schema' (Some xml) (Some bin))
  | TaskType.OTHER _ => None
  end.



(** The three [if]s on the task type bind [inferencer] to the inferencer
    of the task type, or leave it unbound. *)
Lemma inferencer_of_task_type_ifs (task_type' : TaskType.t) (hparams' : DetectionConfig)
    (label_schema' : LabelSchemaEntity) (xml bin : Bytes) :
  (if decide (task_type' = TaskType.ROTATED_DETECTION)
   then Some (OpenVINORotatedRectInferencer_init hparams' label_schema' (Some xml) (Some bin))
   else if decide (task_type' = TaskType.INSTANCE_SEGMENTATION)
   then Some (OpenVINOMaskInferencer_init hparams' label_schema' (Some xml) (Some bin))
   else if decide (task_type' = TaskType.DETECTION)
   then Some (OpenVINODetectionInferencer_init hparams' label_schema' (Some xml) (Some bin))
   else None)
  = inferencer_of_task_type task_type' hparams' label_schema' xml bin.
Proof. by destruct task_type'. Qed.

(** For any other task type, with tiling off, [inferencer] is still
    unbound when the [isinstance] test reads it. *)
Lemma load_inferencer_other_task_type (self : Task) (name : string)
    (model' : ModelEntity) (data' : Bytes) (threshold : Float) (xml bin : Bytes) :
  model self = Some model' ->
  task_type self = TaskType.OTHER name ->
  get_data model' "confidence_threshold" = Ok data' ->
  frombuffer_float32 data' = Ok threshold ->
  get_data model' "openvino.xml" = Ok xml ->
  get_data model' "openvino.bin" = Ok bin ->
  truthy (getattr (tiling_parameters (config self)) "enable_tiling") = false ->
  load_inferencer self =
  (Raise (UnboundLocalError "inferencer"), set_confidence_threshold threshold self).
Proof.
  intros Hmodel Htype Hdata Hthreshold Hxml Hbin Hoff. unfold load_inferencer.
  cbv [mbind M_bind Res_bind read call update raise id mret M_ret].
  rewrite Hmodel. cbv beta iota. rewrite Hdata. cbv beta iota. rewrite Hthreshold.
  cbv beta iota zeta. rewrite Hxml, Hbin, Htype. cbn. by rewrite Hoff.
Qed.


(** *** Properties of optimize *)

(** C3.  [optimize] raises [ValueError] for every optimization type but
    POT; asked for POT, it raises [RuntimeError] when the task has no
    model, and [RuntimeError] "Model is already optimized by POT" when the
    graph loaded from the model's two files has a FakeQuantize node.  In
    the three cases the output model, and the task, are as they were. *)
Theorem optimize_preconditions (optimization_type' : OptimizationType.t)
    (dataset' : DatasetEntity) (self : Task) (output_model : ModelEntity) :
  (optimization_type' <> OptimizationType.POT ->
   optimize optimization_type' dataset' (self, output_model) =
   (Raise (ValueError "POT is the only supported optimization type for OpenVino models"),
    (self, output_model))) /\
  (optimization_type' = OptimizationType.POT -> model self = None ->
   optimize optimization_type' dataset' (self, output_model) =
   (Raise (RuntimeError "Optimize failed, model is None"), (self, output_model))) /\
  (forall model' xml bin graph,
     optimization_type' = OptimizationType.POT -> model self = Some model' ->
     get_data model' "openvino.xml" = Ok xml ->
     get_data model' "openvino.bin" = Ok bin ->
     load_model xml bin = Ok graph ->
     get_nodes_by_type graph ["FakeQuantize"] <> [] ->
     optimize optimization_type' dataset' (self, output_model) =
     (Raise (RuntimeError "Model is already optimized by POT"), (self, output_model))).
Proof.
  split; [| split].
  - intros Hne. unfold optimize.
    cbv [mbind M_bind read raise fst].
    by destruct (decide (optimization_type' <> OptimizationType.POT)).
  - intros -> Hmodel. unfold optimize.
    cbv [mbind M_bind read raise fst].
    destruct (decide (OptimizationType.POT <> OptimizationType.POT)); [done |].
    by rewrite Hmodel.
  - intros model' xml bin graph -> Hmodel Hxml Hbin Hgraph Hnodes. unfold optimize.
    cbv [mbind M_bind Res_bind read call raise fst].
    destruct (decide (OptimizationType.POT <> OptimizationType.POT)); [done |].
    rewrite Hmodel. cbv beta iota. rewrite Hxml, Hbin, Hgraph.
    by destruct (get_nodes_by_type graph ["FakeQuantize"]).
Qed.

Lemma get_data_set_data (key key' : string) (data' : Bytes) (model' : ModelEntity) :
  get_data (set_data key data' model') key' =
  if decide (key = key') then Ok data' else get_data model' key'.
Proof.
  unfold get_data, set_data. cbn. rewrite lookup_insert.
  by destruct (decide (key = key')).
Qed.

Lemma get_data_set_quantized_attributes (key : string) (model' : ModelEntity) :
  get_data (set_quantized_attributes model') key = get_data model' key.
Proof. reflexivity. Qed.

(** [load_inferencer] assigns [self.confidence_threshold] and nothing
    else, whether it returns or raises. *)
Lemma load_inferencer_frame (self self' : Task) (r : Res Inferencer) :
  load_inferencer self = (r, self') ->
  self' = self \/ exists threshold, self' = set_confidence_threshold threshold self.
Proof.
  unfold load_inferencer.
  cbv [mbind M_bind Res_bind read call update raise id mret M_ret].
  destruct (model self) as [model' |]; [| intros [= <- <-]; by left].
  destruct (get_data model' "confidence_threshold") as [data' |];
    [| intros [= <- <-]; by left].
  destruct (frombuffer_float32 data') as [threshold |]; [| intros [= <- <-]; by left].
  cbv beta iota zeta.
  intros Hrun. right. exists threshold.
  destruct (get_data model' "openvino.xml") as [xml |]; [| by injection Hrun as <- <-].
  destruct (get_data model' "openvino.bin") as [bin |]; [| by injection Hrun as <- <-].
  rewrite !inferencer_of_task_type_ifs in Hrun.
  destruct (inferencer_of_task_type _ _ _ _ _) as [base |];
    (destruct (truthy (getattr _ "enable_tiling")); [| by injection Hrun as <- <-]);
    (destruct (truthy (getattr _ "enable_tile_classifier"));
     [destruct (get_data model' "tile_classifier.xml"); [| by injection Hrun as <- <-];
      destruct (get_data model' "tile_classifier.bin"); [| by injection Hrun as <- <-] |]);
    cbv beta iota in Hrun;
    try (by injection Hrun as <- <-);
    by destruct (OpenVINOTileClassifierWrapper_init _ _ _ _ _ _ _); injection Hrun as <- <-.
Qed.

(** C6.  When [optimize] returns, the output model carries the two files
    saved from the compressed model, the task's confidence threshold as
    the four bytes of a float32, the label schema and the
    hyper-parameters, under the keys openvino.xml, openvino.bin,
    confidence_threshold, label_schema.json and config.json; its format is
    OPENVINO, its optimization type POT, its optimization methods
    [[QUANTIZATION]] and its precision [[INT8]]; the task's model is the
    output model and its inferencer is the one [load_inferencer] returns
    for that model. *)
Theorem optimize_postcondition (optimization_type' : OptimizationType.t)
    (dataset' : DatasetEntity) (self self' : Task)
    (output_model output_model' : ModelEntity) :
  optimize optimization_type' dataset' (self, output_model)
    = (Ok tt, (self', output_model')) ->
  (exists compressed_model xml bin,
     save_model compressed_model = Ok (xml, bin) /\
     get_data output_model' "openvino.xml" = Ok xml /\
     get_data output_model' "openvino.bin" = Ok bin) /\
  get_data output_model' "confidence_threshold"
    = Ok (float32_tobytes (confidence_threshold self)) /\
  length (float32_tobytes (confidence_threshold self)) = 4 /\
  get_data output_model' "label_schema.json"
    = Ok (label_schema_to_bytes (label_schema (task_environment self))) /\
  get_data output_model' "config.json" = Ok (config_to_bytes (hparams self)) /\
  model_format output_model' = ModelFormat.OPENVINO /\
  optimization_type output_model' = ModelOptimizationType.POT /\
  optimization_methods output_model' = [OptimizationMethod.QUANTIZATION] /\
  precision output_model' = [ModelPrecision.INT8] /\
  model self' = Some output_model' /\
  exists reloaded,
    load_inferencer (set_model (Some output_model') self)
      = (Ok (inferencer self'), reloaded) /\
    self' = set_inferencer (inferencer self') reloaded.
Proof.
  intros Hrun. unfold optimize in Hrun.
  cbv [mbind M_bind Res_bind read call raise update on_output_model on_task fst snd] in Hrun.
  destruct (decide (optimization_type' <> OptimizationType.POT)); [discriminate |].
  destruct (model self) as [model' |] eqn:Hmodel; [| discriminate].
  destruct (get_data model' "openvino.xml") as [xml0 |]; [| discriminate].
  destruct (get_data model' "openvino.bin") as [bin0 |]; [| discriminate].
  destruct (load_model xml0 bin0) as [graph |]; [| discriminate].
  destruct (get_nodes_by_type graph ["FakeQuantize"]); [| discriminate].
  destruct (pipeline_run _ _ graph) as [compressed |]; [| discriminate].
  destruct (compress_model_weights compressed) as [compressed' |]; [| discriminate].
  destruct (save_model compressed') as [[xml bin] |] eqn:Hsave; [| discriminate].
  cbv beta iota zeta in Hrun.
  destruct (load_inferencer _) as [[inferencer' | e] reloaded] eqn:Hload;
    [| discriminate].
  injection Hrun as <- <-.
  rewrite !get_data_set_quantized_attributes, !get_data_set_data. cbn.
  split; [exists compressed', xml, bin; split; [exact Hsave |]; split; reflexivity |].
  split; [reflexivity |]. split; [apply float32_tobytes_length |].
  split; [reflexivity |]. split; [reflexivity |].
  split; [reflexivity |]. split; [reflexivity |].
  split; [reflexivity |]. split; [reflexivity |].
  split.
  - apply load_inferencer_frame in Hload as [-> | [threshold ->]]; reflexivity.
  - exists reloaded. split; [exact Hload | reflexivity].
Qed.

(** *** Properties of deploy *)










(** *** Properties of load_config *)

(** Once the hyper-parameters are flattened, [load_config] returns: the
    [try] block cannot make it raise, and what it returns is the [ADDict]
    of the value [config] is bound to when the block is left. *)
Lemma load_config_returns (self : Task) (config : PyValue) :
  flatten_detection_config_groups (vars_ (hparams self)) = (Ok tt, config) ->
  (load_config self).1 = Ok (ADDict (load_config_try self config).1).
Proof.
  intros Hflat. unfold load_config. rewrite Hflat.
  by destruct (load_config_try self config).
Qed.


End Task.

(** *** explain *)

Module ExplainParameters.
Record t : Type := {
  process_saliency_maps : bool;
  explain_predicted_classes : bool;
}.
End ExplainParameters.

Section Coverage.

Context `{Values, !External}.

(** A [for] loop over objects its body works on in place and may leave by
    an exception: the objects reached are as the body left them, the ones
    after an exception are not touched. *)
Fixpoint for_each {A} (body : M A unit) (l : list A) : Res unit * list A :=
  match l with
  | [] => (Ok tt, [])
  | x :: l' =>
      match body x with
      | (Ok _, x') => let '(r, l'') := for_each body l' in (r, x' :: l'')
      | (Raise e, x') => (Raise e, x' :: l')
      end
  end.

(** The body of the loop of [explain] for one item; the progress callback
    is left out. *)
Definition explain_item (self : Task)
    (process_saliency_maps' explain_predicted_classes' : bool)
    : M DatasetItemEntity unit :=
  dataset_item ← read id;
  let '(predicted_scene, features) := predict (inferencer self) (item_numpy dataset_item) in
  update (append_annotations (annotations predicted_scene));;
  match features.2 with
  | None =>
      raise (RuntimeError
               ("There is no Saliency Map in OpenVINO IR model output. " +:+
                "Please export model to OpenVINO IR with dump_features"))
  | Some saliency_map =>
      let labels' := labels (task_environment self) in
      let labels' :=
        if bool_decide (shape0 saliency_map = length labels' + 1)
        then labels' ++ [new_LabelEntity "background" Domain.DETECTION]
        else labels' in
      let predicted_scored_labels :=
        mjoin (map get_labels (annotations predicted_scene)) in
      update (fun dataset_item =>
                add_saliency_maps_to_dataset_item dataset_item saliency_map (model self)
                  labels' predicted_scored_labels explain_predicted_classes'
                  process_saliency_maps')
  end.

(** [explain] works on the dataset it is given and returns that object. *)
Definition explain (self : Task) (explain_parameters : option ExplainParameters.t)
    : M (list DatasetItemEntity) unit :=
  let process_saliency_maps' := false in
  let explain_predicted_classes' := true in
  let '(process_saliency_maps', explain_predicted_classes') :=
    match explain_parameters with
    | Some p =>
        (ExplainParameters.process_saliency_maps p,
         ExplainParameters.explain_predicted_classes p)
    | None => (process_saliency_maps', explain_predicted_classes')
    end in
  for_each (explain_item self process_saliency_maps' explain_predicted_classes').

(** *** Vocabulary for items *)

(** [item'] is [item] with annotations and metadata items appended. *)
Definition appended_to (item item' : DatasetItemEntity) (new : list Annotation)
    (added : list MetadataItemEntity) : Prop :=
  item_numpy item' = item_numpy item /\
  annotations (annotation_scene item') = annotations (annotation_scene item) ++ new /\
  item_metadata item' = item_metadata item ++ added.

(** The metadata items of saliency maps, made by the task's model. *)
Definition saliency_items (self : Task) (media : list ResultMediaEntity)
    : list MetadataItemEntity :=
  map (fun m => {| data := SaliencyMedia m; metadata_model := model self |}) media.

Lemma add_saliency_maps_to_dataset_item_metadata (dataset_item : DatasetItemEntity)
    (saliency_map : Array) (model' : option ModelEntity) (labels' : list LabelEntity)
    (predicted_scored_labels : list ScoredLabel) (explain' process' : bool) :
  let item' :=
    add_saliency_maps_to_dataset_item dataset_item saliency_map model' labels'
      predicted_scored_labels explain' process' in
  item_numpy item' = item_numpy dataset_item /\
  annotation_scene item' = annotation_scene dataset_item /\
  item_metadata item' =
    item_metadata dataset_item ++
    map (fun m => {| data := SaliencyMedia m; metadata_model := model' |})
      (saliency_media dataset_item saliency_map labels' predicted_scored_labels
         explain' process').
Proof.
  unfold add_saliency_maps_to_dataset_item.
  generalize (saliency_media dataset_item saliency_map labels' predicted_scored_labels
                explain' process').
  intros media. revert dataset_item.
  induction media as [| m media IH]; intros dataset_item; cbn.
  - split; [done |]. split; [done |]. by rewrite app_nil_r.
  - destruct (IH (append_metadata_item (SaliencyMedia m) model' dataset_item))
      as (Himage & Hscene & Hmeta).
    split; [by rewrite Himage |]. split; [by rewrite Hscene |].
    rewrite Hmeta. cbn. by rewrite <- app_assoc.
Qed.

Lemma Forall2_map_r {A B} (P : A -> B -> Prop) (f : A -> B) (l : list A) :
  (forall x, x ∈ l -> P x (f x)) -> Forall2 P l (map f l).
Proof.
  induction l as [| x l IH]; intros HP; cbn; constructor.
  - apply HP. left.
  - apply IH. intros y Hy. apply HP. by right.
Qed.

(** The metadata item of a feature vector, made by the task's model. *)
Definition representation_items (self : Task) (feature_vector : option Array)
    : list MetadataItemEntity :=
  match feature_vector with
  | Some feature_vector =>
      [{| data := TensorEntity "representation_vector" (reshape_flat feature_vector);
          metadata_model := model self |}]
  | None => []
  end.

(** *** Properties of predict *)

(** X5.  An inferencer that is not a tile classifier wrapper gives a
    feature vector exactly when it gives a saliency map, and it gives
    both exactly when the network's output has both a "feature_vector"
    and a "saliency_map" blob: one blob without the other is dropped. *)
Theorem predict_features_both_or_none (self : Inferencer) (image : Image) :
  (forall tiler, class_ self <> OpenVINOTileClassifierWrapper tiler) ->
  let raw_predictions := forward self (pre_process self image).1 in
  let features := (predict self image).2 in
  (is_Some features.1 <-> is_Some features.2) /\
  (is_Some features.2 <->
   is_Some (raw_predictions !! "feature_vector") /\
   is_Some (raw_predictions !! "saliency_map")).
Proof.
  intros Hclass. unfold predict.
  destruct (class_ self) as [| | | tiler] eqn:Hc; [| | | by destruct (Hclass tiler)];
    destruct (pre_process self image) as [image' metadata]; cbn;
    destruct (forward self image' !! "feature_vector"),
             (forward self image' !! "saliency_map"); cbn;
    (split; split; intros Hsome; try (destruct Hsome as [Hs1 Hs2]);
     try done; try (by inversion Hsome); try (by inversion Hs1);
     try (by inversion Hs2); eauto).
Qed.

(** *** Properties of infer, continued *)

Lemma infer_item_run (self : Task) (add_saliency_map process' explain' : bool)
    (dataset_item : DatasetItemEntity) :
  let prediction := predict (inferencer self) (item_numpy dataset_item) in
  exists media,
    appended_to dataset_item
      (infer_item self add_saliency_map process' explain' dataset_item)
      (annotations prediction.1)
      (representation_items self prediction.2.1 ++ saliency_items self media) /\
    (add_saliency_map = false \/ prediction.2.2 = None -> media = []).
Proof.
  unfold infer_item, appended_to, saliency_items.
  destruct (predict (inferencer self) (item_numpy dataset_item))
    as [predicted_scene [feature_vector saliency_map]]. cbn.
  destruct saliency_map as [saliency_map |]; [destruct add_saliency_map |].
  - match goal with
    | |- context [add_saliency_maps_to_dataset_item ?i ?s ?m ?l ?p ?e ?q] =>
        destruct (add_saliency_maps_to_dataset_item_metadata i s m l p e q)
          as (Himage & Hscene & Hmeta);
        exists (saliency_media i s l p e q)
    end.
    rewrite Himage, Hscene, Hmeta.
    split; [| by intros [? | ?]].
    destruct feature_vector; cbn; by rewrite <- ?app_assoc.
  - exists []. split; [| done].
    destruct feature_vector; cbn; by rewrite ?app_nil_r.
  - exists []. split; [| done].
    destruct feature_vector; cbn; by rewrite ?app_nil_r.
Qed.

Lemma infer_run (self : Task) (inference_parameters : option InferenceParameters)
    (dataset' : list DatasetItemEntity) :
  dataset' <> [] ->
  infer self inference_parameters dataset' =
  (Ok tt,
   map (infer_item self
          (match inference_parameters with
           | Some p => negb (is_evaluation p) | None => true end)
          (match inference_parameters with
           | Some p => process_saliency_maps p | None => false end)
          (match inference_parameters with
           | Some p => explain_predicted_classes p | None => true end))
     dataset').
Proof.
  intros Hne. unfold infer.
  destruct inference_parameters as [p |];
    cbv [mbind M_bind update read id]; cbn;
    (destruct dataset'; [done | reflexivity]).
Qed.

(** X6.  On a dataset that is not empty [infer] returns, and the dataset
    has the same items in the same order, each with the image it had, the
    predicted annotations after the annotations it had, and after the
    metadata it had a representation vector, when the prediction has a
    feature vector, followed by saliency map items. *)
Theorem infer_appends_to_items (self : Task)
    (inference_parameters : option InferenceParameters)
    (dataset' : list DatasetItemEntity) :
  dataset' <> [] ->
  exists result,
    infer self inference_parameters dataset' = (Ok tt, result) /\
    Forall2
      (fun item item' =>
         let prediction := predict (inferencer self) (item_numpy item) in
         exists media,
           appended_to item item' (annotations prediction.1)
             (representation_items self prediction.2.1 ++ saliency_items self media))
      dataset' result.
Proof.
  intros Hne. eexists. split; [by apply infer_run |].
  apply Forall2_map_r. intros item _.
  match goal with
  | |- context [infer_item self ?a ?p ?e item] =>
      destruct (infer_item_run self a p e item) as (media & Happ & _)
  end.
  by exists media.
Qed.


(** *** Properties of explain *)

Definition no_saliency_map_message : string :=
  "There is no Saliency Map in OpenVINO IR model output. " +:+
  "Please export model to OpenVINO IR with dump_features".

Lemma explain_item_run (self : Task) (process' explain' : bool)
    (dataset_item : DatasetItemEntity) :
  let prediction := predict (inferencer self) (item_numpy dataset_item) in
  match prediction.2.2 with
  | None =>
      explain_item self process' explain' dataset_item =
      (Raise (RuntimeError no_saliency_map_message),
       append_annotations (annotations prediction.1) dataset_item)
  | Some _ =>
      exists item' media,
        explain_item self process' explain' dataset_item = (Ok tt, item') /\
        appended_to dataset_item item' (annotations prediction.1)
          (saliency_items self media)
  end.
Proof.
  unfold explain_item, appended_to, saliency_items.
  cbv [mbind M_bind read update raise id].
  destruct (predict (inferencer self) (item_numpy dataset_item))
    as [predicted_scene [feature_vector [saliency_map |]]]; cbn; [| reflexivity].
  match goal with
  | |- context [add_saliency_maps_to_dataset_item ?i ?s ?m ?l ?p ?e ?q] =>
      destruct (add_saliency_maps_to_dataset_item_metadata i s m l p e q)
        as (Himage & Hscene & Hmeta);
      exists (add_saliency_maps_to_dataset_item i s m l p e q),
             (saliency_media i s l p e q)
  end.
  split; [reflexivity |]. by rewrite Himage, Hscene, Hmeta.
Qed.

(** The items [explain] has explained. *)
Definition explained (self : Task) (item item' : DatasetItemEntity) : Prop :=
  exists media,
    appended_to item item'
      (annotations (predict (inferencer self) (item_numpy item)).1)
      (saliency_items self media).

Lemma for_each_explain_item (self : Task) (process' explain' : bool)
    (before : list DatasetItemEntity) :
  Forall (fun item => is_Some (predict (inferencer self) (item_numpy item)).2.2) before ->
  forall rest,
    exists before',
      Forall2 (explained self) before before' /\
      for_each (explain_item self process' explain') (before ++ rest) =
      let '(r, rest') := for_each (explain_item self process' explain') rest in
      (r, before' ++ rest').
Proof.
  induction 1 as [| item before Hitem _ IH]; intros rest.
  - exists []. split; [constructor |]. cbn.
    by destruct (for_each _ rest).
  - destruct (IH rest) as (before' & Hbefore & Hrun).
    pose proof (explain_item_run self process' explain' item) as Hone.
    cbn in Hone. destruct Hitem as [saliency_map Hsal]. rewrite Hsal in Hone.
    destruct Hone as (item' & media & Hitem' & Happ).
    exists (item' :: before'). split; [constructor; [by exists media | done] |].
    cbn. rewrite Hitem', Hrun.
    by destruct (for_each _ rest).
Qed.

(** X8.  When every item's prediction has a saliency map, [explain]
    returns, also on the empty dataset, and the dataset has the same items
    in the same order, each with the image it had, the predicted
    annotations after the annotations it had, and saliency map items after
    the metadata it had. *)
Theorem explain_appends_to_items (self : Task)
    (explain_parameters : option ExplainParameters.t)
    (dataset' : list DatasetItemEntity) :
  Forall (fun item => is_Some (predict (inferencer self) (item_numpy item)).2.2)
    dataset' ->
  exists result,
    explain self explain_parameters dataset' = (Ok tt, result) /\
    Forall2 (explained self) dataset' result.
Proof.
  intros Hall. unfold explain.
  destruct explain_parameters as [p |]; cbn;
    match goal with
    | |- context [for_each (explain_item self ?pr ?ex)] =>
        destruct (for_each_explain_item self pr ex dataset' Hall [])
          as (result & Hresult & Hrun)
    end;
    exists result; rewrite app_nil_r in Hrun; cbn in Hrun;
    rewrite app_nil_r in Hrun; done.
Qed.

(** X9.  [explain] raises [RuntimeError] at the first item whose
    prediction has no saliency map: the items before it are explained,
    that item has got the predicted annotations, and the items after it
    are as they were. *)
Theorem explain_raises_without_saliency_map (self : Task)
    (explain_parameters : option ExplainParameters.t)
    (before after : list DatasetItemEntity) (item : DatasetItemEntity) :
  Forall (fun item => is_Some (predict (inferencer self) (item_numpy item)).2.2)
    before ->
  (predict (inferencer self) (item_numpy item)).2.2 = None ->
  exists before',
    explain self explain_parameters (before ++ item :: after) =
    (Raise (RuntimeError no_saliency_map_message),
     before' ++
     append_annotations (annotations (predict (inferencer self) (item_numpy item)).1) item
     :: after) /\
    Forall2 (explained self) before before'.
Proof.
  intros Hbefore Hnone. unfold explain.
  destruct explain_parameters as [p |]; cbn;
    match goal with
    | |- context [for_each (explain_item self ?pr ?ex)] =>
        destruct (for_each_explain_item self pr ex before Hbefore (item :: after))
          as (before' & Hexplained & Hrun);
        pose proof (explain_item_run self pr ex item) as Hone
    end;
    cbn in Hone; rewrite Hnone in Hone;
    exists before'; (split; [| done]);
    rewrite Hrun; cbn; by rewrite Hone.
Qed.

(** *** Properties of load_config, continued *)

(** X10.  Without a stored configuration, that is when the task has no
    model or its model's config.json is empty, [load_config] returns the
    flattened hyper-parameters and logs no warning. *)
Theorem load_config_without_stored_config (self : Task) (config : PyValue) :
  flatten_detection_config_groups (vars_ (hparams self)) = (Ok tt, config) ->
  model self = None \/
  (exists model', model self = Some model' /\ get_data model' "config.json" = Ok []) ->
  load_config self = (Ok (ADDict config), []).
Proof.
  intros Hflat Hstored. unfold load_config, load_config_try. rewrite Hflat.
  destruct Hstored as [-> | (model' & -> & ->)]; reflexivity.
Qed.

(** X11.  [load_config] raises exactly when flattening the
    hyper-parameters raises, with that exception and no warning: whatever
    reading, parsing, flattening and merging the stored configuration do,
    it returns then, with at most one warning. *)
Theorem load_config_raises_only_from_flatten (self : Task) :
  match (flatten_detection_config_groups (vars_ (hparams self))).1 with
  | Raise e => load_config self = (Raise e, [])
  | Ok _ =>
      exists config log,
        load_config self = (Ok config, log) /\ length log <= 1
  end.
Proof.
  unfold load_config.
  destruct (flatten_detection_config_groups (vars_ (hparams self)))
    as [[[] | e] config]; cbn; [| reflexivity].
  destruct (load_config_try self config) as [config' [e |]];
    do 2 eexists; (split; [reflexivity | cbn; lia]).
Qed.

(** *** Properties of load_inferencer, continued *)

(** The two files of the tile classifier, read when the tile classifier
    is on. *)
Definition tile_classifier_files (model' : ModelEntity)
    (tiling : gmap string PyValue) : Res (option Bytes * option Bytes) :=
  if truthy (getattr tiling "enable_tile_classifier") then
    match get_data model' "tile_classifier.xml" with
    | Ok tile_xml =>
        match get_data model' "tile_classifier.bin" with
        | Ok tile_bin => Ok (Some tile_xml, Some tile_bin)
        | Raise e => Raise e
        end
    | Raise e => Raise e
    end
  else Ok (None, None).

(** What [load_inferencer] does once the threshold and the two files of
    the network are read. *)
Lemma load_inferencer_run (self : Task) (model' : ModelEntity) (data' : Bytes)
    (threshold : Float) (xml bin : Bytes) :
  model self = Some model' ->
  get_data model' "confidence_threshold" = Ok data' ->
  frombuffer_float32 data' = Ok threshold ->
  get_data model' "openvino.xml" = Ok xml ->
  get_data model' "openvino.bin" = Ok bin ->
  let tiling := tiling_parameters (config self) in
  let base :=
    inferencer_of_task_type (task_type self)
      (set_postprocessing_confidence_threshold threshold (hparams self))
      (label_schema (task_environment self)) xml bin in
  load_inferencer self =
  (if truthy (getattr tiling "enable_tiling") then
     match tile_classifier_files model' tiling with
     | Ok files =>
         match base with
         | Some base =>
             OpenVINOTileClassifierWrapper_init base
               (getattr tiling "tile_size") (getattr tiling "tile_overlap")
               (getattr tiling "tile_max_number") files.1 files.2 "async"
         | None => Raise (UnboundLocalError "inferencer")
         end
     | Raise e => Raise e
     end
   else
     match base with
     | Some base => Ok base
     | None => Raise (UnboundLocalError "inferencer")
     end,
   set_confidence_threshold threshold self).
Proof.
  intros Hmodel Hdata Hthreshold Hxml Hbin tiling base.
  unfold load_inferencer, tile_classifier_files.
  cbv [mbind M_bind Res_bind read call update raise id mret M_ret].
  rewrite Hmodel. cbv beta iota. rewrite Hdata. cbv beta iota. rewrite Hthreshold.
  cbv beta iota zeta. rewrite Hxml, Hbin.
  rewrite !inferencer_of_task_type_ifs. fold base. fold tiling.
  destruct (truthy (getattr tiling "enable_tiling")); [| by destruct base].
  destruct (truthy (getattr tiling "enable_tile_classifier")).
  - destruct (get_data model' "tile_classifier.xml"); [| reflexivity].
    destruct (get_data model' "tile_classifier.bin"); [| reflexivity].
    destruct base; [| reflexivity].
    by destruct (OpenVINOTileClassifierWrapper_init _ _ _ _ _ _ _).
  - destruct base; [| reflexivity].
    by destruct (OpenVINOTileClassifierWrapper_init _ _ _ _ _ _ _).
Qed.

(** Before that, [load_inferencer] raises at the first read that fails,
    and the task is as it was. *)
Lemma load_inferencer_reads (self self' : Task) (r : Res Inferencer) :
  load_inferencer self = (r, self') ->
  (exists e, r = Raise e /\
     (self' = self \/ exists threshold, self' = set_confidence_threshold threshold self)) \/
  (exists model' data' threshold xml bin,
     model self = Some model' /\
     get_data model' "confidence_threshold" = Ok data' /\
     frombuffer_float32 data' = Ok threshold /\
     get_data model' "openvino.xml" = Ok xml /\
     get_data model' "openvino.bin" = Ok bin).
Proof.
  intros Hrun.
  destruct (model self) as [model' |] eqn:Hmodel.
  2: { left. unfold load_inferencer in Hrun.
       cbv [mbind M_bind read raise id] in Hrun. rewrite Hmodel in Hrun.
       injection Hrun as <- <-. eexists. split; [reflexivity | by left]. }
  destruct (get_data model' "confidence_threshold") as [data' | e] eqn:Hdata.
  2: { left. unfold load_inferencer in Hrun.
       cbv [mbind M_bind Res_bind read call raise id] in Hrun.
       rewrite Hmodel in Hrun. cbv beta iota in Hrun. rewrite Hdata in Hrun.
       injection Hrun as <- <-. eexists. split; [reflexivity | by left]. }
  destruct (frombuffer_float32 data') as [threshold | e] eqn:Hthreshold.
  2: { left. unfold load_inferencer in Hrun.
       cbv [mbind M_bind Res_bind read call raise id] in Hrun.
       rewrite Hmodel in Hrun. cbv beta iota in Hrun. rewrite Hdata in Hrun.
       cbv beta iota in Hrun. rewrite Hthreshold in Hrun.
       injection Hrun as <- <-. eexists. split; [reflexivity | by left]. }
  destruct (get_data model' "openvino.xml") as [xml | e] eqn:Hxml.
  2: { left. unfold load_inferencer in Hrun.
       cbv [mbind M_bind Res_bind read call update raise id] in Hrun.
       rewrite Hmodel in Hrun. cbv beta iota in Hrun. rewrite Hdata in Hrun.
       cbv beta iota in Hrun. rewrite Hthreshold in Hrun.
       cbv beta iota zeta in Hrun. rewrite Hxml in Hrun.
       injection Hrun as <- <-. eexists. split; [reflexivity | right; by eexists]. }
  destruct (get_data model' "openvino.bin") as [bin | e] eqn:Hbin.
  2: { left. unfold load_inferencer in Hrun.
       cbv [mbind M_bind Res_bind read call update raise id] in Hrun.
       rewrite Hmodel in Hrun. cbv beta iota in Hrun. rewrite Hdata in Hrun.
       cbv beta iota in Hrun. rewrite Hthreshold in Hrun.
       cbv beta iota zeta in Hrun. rewrite Hxml, Hbin in Hrun.
       injection Hrun as <- <-. eexists. split; [reflexivity | right; by eexists]. }
  right. by exists model', data', threshold, xml, bin.
Qed.

(** X12.  [load_inferencer] returns only for a task with a model that
    carries a confidence threshold and the two files of the network, and
    a task type among detection, instance segmentation and rotated
    detection.  The task's confidence threshold is then the one decoded
    from the model, and the inferencer returned has the model, the
    configuration and the converter of the inferencer of the task type
    built on the two files with that threshold; it is that inferencer
    when tiling is off and a tile classifier wrapper when tiling is on. *)
Theorem load_inferencer_returns_only_for (self self' : Task) (inferencer' : Inferencer) :
  load_inferencer self = (Ok inferencer', self') ->
  exists model' data' threshold xml bin base,
    model self = Some model' /\
    get_data model' "confidence_threshold" = Ok data' /\
    frombuffer_float32 data' = Ok threshold /\
    get_data model' "openvino.xml" = Ok xml /\
    get_data model' "openvino.bin" = Ok bin /\
    inferencer_of_task_type (task_type self)
      (set_postprocessing_confidence_threshold threshold (hparams self))
      (label_schema (task_environment self)) xml bin = Some base /\
    self' = set_confidence_threshold threshold self /\
    inferencer_model inferencer' = inferencer_model base /\
    configuration inferencer' = configuration base /\
    converter inferencer' = converter base /\
    if truthy (getattr (tiling_parameters (config self)) "enable_tiling")
    then exists tiler, class_ inferencer' = OpenVINOTileClassifierWrapper tiler
    else inferencer' = base.
Proof.
  intros Hrun.
  destruct (load_inferencer_reads _ _ _ Hrun)
    as [(e & [=] & _) | (model' & data' & threshold & xml & bin &
                         Hmodel & Hdata & Hthreshold & Hxml & Hbin)].
  rewrite (load_inferencer_run self model' data' threshold xml bin) in Hrun by done.
  cbv zeta in Hrun.
  destruct (inferencer_of_task_type _ _ _ _ _) as [base |] eqn:Hbase.
  2: { destruct (truthy _); [destruct (tile_classifier_files _ _) |]; discriminate. }
  exists model', data', threshold, xml, bin, base.
  do 6 (split; [done |]).
  destruct (truthy (getattr (tiling_parameters (config self)) "enable_tiling")).
  - destruct (tile_classifier_files _ _) as [files |]; [| discriminate].
    unfold OpenVINOTileClassifierWrapper_init in Hrun.
    destruct (bool_decide _); [| discriminate].
    injection Hrun as <- <-. cbn. repeat split. by eexists.
  - by injection Hrun as <- <-.
Qed.

(** X13.  For a task type other than detection, instance segmentation and
    rotated detection, [load_inferencer] never returns; once its reads
    succeed, the exception is the [UnboundLocalError] of the local
    variable [inferencer], whether tiling is on or off, and the task's
    confidence threshold is already the decoded one. *)
Theorem load_inferencer_other_task_type_raises (self : Task) (name : string) :
  task_type self = TaskType.OTHER name ->
  (exists e self', load_inferencer self = (Raise e, self')) /\
  (forall model' data' threshold xml bin,
     model self = Some model' ->
     get_data model' "confidence_threshold" = Ok data' ->
     frombuffer_float32 data' = Ok threshold ->
     get_data model' "openvino.xml" = Ok xml ->
     get_data model' "openvino.bin" = Ok bin ->
     (truthy (getattr (tiling_parameters (config self)) "enable_tiling") = true ->
      truthy (getattr (tiling_parameters (config self)) "enable_tile_classifier") = true ->
      exists tile_xml tile_bin,
        get_data model' "tile_classifier.xml" = Ok tile_xml /\
        get_data model' "tile_classifier.bin" = Ok tile_bin) ->
     load_inferencer self =
     (Raise (UnboundLocalError "inferencer"), set_confidence_threshold threshold self)).
Proof.
  intros Htype.
  assert (Hrun : forall model' data' threshold xml bin,
            model self = Some model' ->
            get_data model' "confidence_threshold" = Ok data' ->
            frombuffer_float32 data' = Ok threshold ->
            get_data model' "openvino.xml" = Ok xml ->
            get_data model' "openvino.bin" = Ok bin ->
            load_inferencer self =
            (if truthy (getattr (tiling_parameters (config self)) "enable_tiling") then
               match tile_classifier_files model' (tiling_parameters (config self)) with
               | Ok _ => Raise (UnboundLocalError "inferencer")
               | Raise e => Raise e
               end
             else Raise (UnboundLocalError "inferencer"),
             set_confidence_threshold threshold self)).
  { intros model' data' threshold xml bin Hmodel Hdata Hthreshold Hxml Hbin.
    rewrite (load_inferencer_run self model' data' threshold xml bin) by done.
    cbv zeta. by rewrite Htype. }
  split.
  - destruct (load_inferencer self) as [r self'] eqn:Hload.
    destruct (load_inferencer_reads _ _ _ Hload)
      as [(e & -> & _) | (model' & data' & threshold & xml & bin &
                          Hmodel & Hdata & Hthreshold & Hxml & Hbin)];
      [by eauto |].
    pose proof (Hrun model' data' threshold xml bin Hmodel Hdata Hthreshold Hxml Hbin)
      as [= -> ->].
    destruct (truthy _); [destruct (tile_classifier_files _ _) |]; eauto.
  - intros model' data' threshold xml bin Hmodel Hdata Hthreshold Hxml Hbin Hfiles.
    rewrite (Hrun model' data' threshold xml bin) by done.
    unfold tile_classifier_files.
    destruct (truthy (getattr _ "enable_tiling")); [| reflexivity].
    destruct (truthy (getattr _ "enable_tile_classifier")); [| reflexivity].
    destruct (Hfiles eq_refl eq_refl) as (tile_xml & tile_bin & -> & ->). reflexivity.
Qed.

(** [load_inferencer] returns only after its reads, for one of the three
    task types. *)
Lemma load_inferencer_returns (self self' : Task) (inferencer' : Inferencer) :
  load_inferencer self = (Ok inferencer', self') ->
  exists model' data' threshold xml bin base,
    model self = Some model' /\
    get_data model' "confidence_threshold" = Ok data' /\
    frombuffer_float32 data' = Ok threshold /\
    get_data model' "openvino.xml" = Ok xml /\
    get_data model' "openvino.bin" = Ok bin /\
    inferencer_of_task_type (task_type self)
      (set_postprocessing_confidence_threshold threshold (hparams self))
      (label_schema (task_environment self)) xml bin = Some base /\
    self' = set_confidence_threshold threshold self /\
    inferencer_model inferencer' = inferencer_model base /\
    configuration inferencer' = configuration base /\
    converter inferencer' = converter base.
Proof.
  intros Hrun.
  destruct (load_inferencer_reads _ _ _ Hrun)
    as [(e & [=] & _) | (model' & data' & threshold & xml & bin &
                         Hmodel & Hdata & Hthreshold & Hxml & Hbin)].
  rewrite (load_inferencer_run self model' data' threshold xml bin) in Hrun by done.
  cbv zeta in Hrun.
  destruct (inferencer_of_task_type _ _ _ _ _) as [base |] eqn:Hbase.
  2: { destruct (truthy _); [destruct (tile_classifier_files _ _) |]; discriminate. }
  exists model', data', threshold, xml, bin, base.
  do 6 (split; [done |]).
  destruct (truthy (getattr (tiling_parameters (config self)) "enable_tiling")).
  - destruct (tile_classifier_files _ _) as [files |]; [| discriminate].
    unfold OpenVINOTileClassifierWrapper_init in Hrun.
    destruct (bool_decide _); [| discriminate].
    injection Hrun as <- <-. by cbn.
  - by injection Hrun as <- <-.
Qed.

(** *** Properties of optimize, continued *)

(** The output model after the assignments of lines 679-700. *)
Definition quantized_output (self : Task) (xml bin : Bytes) (output_model : ModelEntity)
    : ModelEntity :=
  set_quantized_attributes
    (set_data "config.json" (config_to_bytes (hparams self))
       (set_data "label_schema.json"
          (label_schema_to_bytes (label_schema (task_environment self)))
          (set_data "confidence_threshold" (float32_tobytes (confidence_threshold self))
             (set_data "openvino.bin" bin
                (set_data "openvino.xml" xml output_model))))).

(** The algorithm and the engine quantization runs with, lines 622-669. *)
Definition calibrates_on (self : Task) (dataset' : list DatasetItemEntity)
    (algorithm : Algorithm) (engine : IEEngine) : Prop :=
  let training := get_subset dataset' Subset.TRAINING in
  data_loader engine = {| dataset := training; loader_inferencer := inferencer self |} /\
  engine_config engine =
    {| engine_device := "CPU";
       stat_requests_number := Z.min (pot_stat_requests_number (hparams self)) cpu_count |} /\
  algorithm =
    {| algorithm_name := "DefaultQuantization";
       target_device := "ANY";
       preset := pot_preset_name_lower (hparams self);
       stat_subset_size :=
         Z.min (pot_stat_subset_size (hparams self)) (Z.of_nat (length training));
       shuffle_data := true |}.

(** [optimize] either raises with the task and the output model as they
    were, or gets as far as saving the compressed model; it then writes
    the output model, makes it the task's model and reloads the
    inferencer. *)
Lemma optimize_run (optimization_type' : OptimizationType.t)
    (dataset' : list DatasetItemEntity) (self : Task) (output_model : ModelEntity) :
  (exists e,
     optimize optimization_type' dataset' (self, output_model) =
     (Raise e, (self, output_model))) \/
  (exists model' xml0 bin0 graph algorithm engine compressed0 compressed xml bin,
     optimization_type' = OptimizationType.POT /\
     model self = Some model' /\
     get_data model' "openvino.xml" = Ok xml0 /\
     get_data model' "openvino.bin" = Ok bin0 /\
     load_model xml0 bin0 = Ok graph /\
     get_nodes_by_type graph ["FakeQuantize"] = [] /\
     calibrates_on self dataset' algorithm engine /\
     pipeline_run [algorithm] engine graph = Ok compressed0 /\
     compress_model_weights compressed0 = Ok compressed /\
     save_model compressed = Ok (xml, bin) /\
     optimize optimization_type' dataset' (self, output_model) =
     let output_model' := quantized_output self xml bin output_model in
     match load_inferencer (set_model (Some output_model') self) with
     | (Ok inferencer', reloaded) =>
         (Ok tt, (set_inferencer inferencer' reloaded, output_model'))
     | (Raise e, reloaded) => (Raise e, (reloaded, output_model'))
     end).
Proof.
  unfold optimize.
  cbv [mbind M_bind Res_bind read call raise update on_output_model on_task fst snd].
  destruct (decide (optimization_type' <> OptimizationType.POT)) as [Hne | Heq];
    [left; by eexists |].
  apply dec_stable in Heq.
  destruct (model self) as [model' |] eqn:Hmodel; [| left; by eexists].
  destruct (get_data model' "openvino.xml") as [xml0 |] eqn:Hxml0; [| left; by eexists].
  destruct (get_data model' "openvino.bin") as [bin0 |] eqn:Hbin0; [| left; by eexists].
  destruct (load_model xml0 bin0) as [graph |] eqn:Hgraph; [| left; by eexists].
  destruct (get_nodes_by_type graph ["FakeQuantize"]) eqn:Hnodes; [| left; by eexists].
  destruct (pipeline_run _ _ graph) as [compressed0 |] eqn:Hpipeline;
    [| left; by eexists].
  destruct (compress_model_weights compressed0) as [compressed |] eqn:Hcompress;
    [| left; by eexists].
  destruct (save_model compressed) as [[xml bin] |] eqn:Hsave; [| left; by eexists].
  right. exists model', xml0, bin0, graph. eexists _, _.
  exists compressed0, compressed, xml, bin.
  do 6 (split; [done |]).
  split; [| split; [exact Hpipeline |]].
  { repeat split. }
  do 2 (split; [done |]).
  cbv beta iota zeta. unfold quantized_output.
  by destruct (load_inferencer _) as [[inferencer' | e] reloaded].
Qed.


(** X15.  When [optimize] returns, it has written five keys of the
    output model and four of its attributes: the data under every other
    key and the exportable code are as they were, and so are the task's
    environment, task type and configuration. *)
Theorem optimize_frame (optimization_type' : OptimizationType.t)
    (dataset' : list DatasetItemEntity) (self self' : Task)
    (output_model output_model' : ModelEntity) :
  optimize optimization_type' dataset' (self, output_model)
    = (Ok tt, (self', output_model')) ->
  (forall key,
     key ∉ ["openvino.xml"; "openvino.bin"; "confidence_threshold";
            "label_schema.json"; "config.json"] ->
     model_adapters output_model' !! key = model_adapters output_model !! key) /\
  exportable_code output_model' = exportable_code output_model /\
  task_environment self' = task_environment self /\
  task_type self' = task_type self /\
  config self' = config self.
Proof.
  intros Hrun.
  destruct (optimize_run optimization_type' dataset' self output_model)
    as [(e' & Hraise) | (model' & xml0 & bin0 & graph & algorithm & engine & compressed0
                         & compressed & xml & bin & _ & _ & _ & _ & _ & _ & _ & _ & _ & _
                         & Hreload)].
  - rewrite Hraise in Hrun. discriminate.
  - rewrite Hreload in Hrun. cbv zeta in Hrun.
    destruct (load_inferencer _) as [[inferencer' | e'] reloaded] eqn:Hload;
      [| discriminate].
    injection Hrun as <- <-.
    split.
    { intros key Hkey. cbn.
      rewrite !lookup_insert_ne; [done | ..]; intros <-; apply Hkey; set_solver. }
    split; [reflexivity |].
    apply load_inferencer_frame in Hload as [-> | [threshold ->]]; done.
Qed.

(** X16.  When [optimize] returns, the inferencer of the task is built
    on the two files saved from the compressed model, for the task type
    of the task, which is one of detection, instance segmentation and
    rotated detection; and the task's confidence threshold is what
    decoding the four bytes of the threshold it had gives. *)
Theorem optimize_reloads_quantized_model (optimization_type' : OptimizationType.t)
    (dataset' : list DatasetItemEntity) (self self' : Task)
    (output_model output_model' : ModelEntity) :
  optimize optimization_type' dataset' (self, output_model)
    = (Ok tt, (self', output_model')) ->
  exists compressed xml bin base,
    save_model compressed = Ok (xml, bin) /\
    frombuffer_float32 (float32_tobytes (confidence_threshold self))
      = Ok (confidence_threshold self') /\
    inferencer_of_task_type (task_type self)
      (set_postprocessing_confidence_threshold (confidence_threshold self') (hparams self))
      (label_schema (task_environment self)) xml bin = Some base /\
    inferencer_model (inferencer self') = inferencer_model base /\
    configuration (inferencer self') = configuration base /\
    converter (inferencer self') = converter base.
Proof.
  intros Hrun.
  destruct (optimize_run optimization_type' dataset' self output_model)
    as [(e' & Hraise) | (model' & xml0 & bin0 & graph & algorithm & engine & compressed0
                         & compressed & xml & bin & _ & _ & _ & _ & _ & _ & _ & _ & _ & Hsave
                         & Hreload)].
  - rewrite Hraise in Hrun. discriminate.
  - rewrite Hreload in Hrun. cbv zeta in Hrun.
    destruct (load_inferencer _) as [[inferencer' | e'] reloaded] eqn:Hload;
      [| discriminate].
    injection Hrun as <- <-.
    apply load_inferencer_returns in Hload
      as (model2 & data2 & threshold & xml2 & bin2 & base & [= <-] & Hdata & Hthreshold
          & Hxml & Hbin & Hbase & -> & Hmodel & Hconfiguration & Hconverter).
    unfold quantized_output in Hdata, Hxml, Hbin.
    rewrite get_data_set_quantized_attributes, !get_data_set_data in Hdata, Hxml, Hbin.
    cbn in Hdata, Hxml, Hbin.
    injection Hdata as <-. injection Hxml as <-. injection Hbin as <-.
    exists compressed, xml, bin, base. cbn.
    by repeat split.
Qed.

(** X17.  When [optimize] returns, the compressed model was made from
    the graph of the model the task had, which had no FakeQuantize node,
    by one DefaultQuantization run over the training subset of the
    dataset, read through the inferencer the task had; the run takes
    statistics on no more items than that subset has nor than the
    hyper-parameters ask for, with no more requests than the machine has
    processors nor than the hyper-parameters ask for. *)
Theorem optimize_calibration_setup (optimization_type' : OptimizationType.t)
    (dataset' : list DatasetItemEntity) (self self' : Task)
    (output_model output_model' : ModelEntity) :
  optimize optimization_type' dataset' (self, output_model)
    = (Ok tt, (self', output_model')) ->
  exists model' xml0 bin0 graph algorithm engine compressed0 compressed xml bin,
    model self = Some model' /\
    get_data model' "openvino.xml" = Ok xml0 /\
    get_data model' "openvino.bin" = Ok bin0 /\
    load_model xml0 bin0 = Ok graph /\
    get_nodes_by_type graph ["FakeQuantize"] = [] /\
    pipeline_run [algorithm] engine graph = Ok compressed0 /\
    compress_model_weights compressed0 = Ok compressed /\
    save_model compressed = Ok (xml, bin) /\
    get_data output_model' "openvino.xml" = Ok xml /\
    get_data output_model' "openvino.bin" = Ok bin /\
    algorithm_name algorithm = "DefaultQuantization" /\
    dataset (data_loader engine) = get_subset dataset' Subset.TRAINING /\
    loader_inferencer (data_loader engine) = inferencer self /\
    (stat_subset_size algorithm <= Z.of_nat (__len__ (data_loader engine)))%Z /\
    (stat_subset_size algorithm <= pot_stat_subset_size (hparams self))%Z /\
    (stat_requests_number (engine_config engine) <= cpu_count)%Z /\
    (stat_requests_number (engine_config engine)
     <= pot_stat_requests_number (hparams self))%Z.
Proof.
  intros Hrun.
  destruct (optimize_run optimization_type' dataset' self output_model)
    as [(e' & Hraise) | (model' & xml0 & bin0 & graph & algorithm & engine & compressed0
                         & compressed & xml & bin & _ & Hmodel & Hxml0 & Hbin0 & Hgraph
                         & Hnodes & (Hloader & Hconfig & ->) & Hpipeline & Hcompress
                         & Hsave & Hreload)].
  - rewrite Hraise in Hrun. discriminate.
  - rewrite Hreload in Hrun. cbv zeta in Hrun.
    destruct (load_inferencer _) as [[inferencer' | e'] reloaded] eqn:Hload;
      [| discriminate].
    injection Hrun as <- <-.
    eexists model', xml0, bin0, graph, _, engine, compressed0, compressed, xml, bin.
    do 5 (split; [done |]). split; [exact Hpipeline |].
    do 2 (split; [done |]).
    unfold quantized_output.
    rewrite !get_data_set_quantized_attributes, !get_data_set_data.
    unfold __len__. rewrite Hloader, Hconfig. cbn.
    repeat split; lia.
Qed.

(** *** Properties of deploy, continued *)

(** X18.  Whether [deploy] returns or raises, it has written into the
    task: the inferencer's configuration has the labels, and the tiling
    parameters have their type as a string; the rest of the task is as it
    was.  Of the output model it assigns [exportable_code] only, when it
    returns, to the archive packed from the task; when it raises, the
    output model is as it was. *)
Theorem deploy_footprint (self self' : Task) (output_model output_model' : ModelEntity)
    (r : Res unit) :
  deploy (self, output_model) = (r, (self', output_model')) ->
  task_environment self' = task_environment self /\
  model self' = model self /\
  task_type self' = task_type self /\
  confidence_threshold self' = confidence_threshold self /\
  inferencer self' =
    set_configuration
      (<["labels" := LabelSchemaMapper_forward (label_schema (task_environment self))]>
         (configuration (inferencer self)))
      (inferencer self) /\
  config self' =
    set_tiling_parameters (stringify_type (tiling_parameters (config self))) (config self) /\
  match r with
  | Ok _ =>
      exists arch,
        deploy_archive self' (deploy_parameters self) = Ok arch /\
        output_model' = set_exportable_code arch output_model
  | Raise e =>
      deploy_archive self' (deploy_parameters self) = Raise e /\
      output_model' = output_model
  end.
Proof.
  unfold deploy. cbv [mbind M_bind read update call fst snd].
  destruct (deploy_archive _ _) as [arch | e] eqn:Harchive;
    intros [= <- <- <-]; cbn; repeat split; try done.
  by exists arch.
Qed.

(** *** Properties of the data loader, continued *)

(** X19.  The loader serves the indices from [-len] to [len - 1], the
    negative ones counting from the end of the dataset, and raises
    [IndexError] for every other index. *)
Theorem OTXOpenVinoDataLoader_getitem_bounds (self : OTXOpenVinoDataLoader) (index : Z) :
  let n := Z.of_nat (__len__ self) in
  ((- n <= index < n)%Z ->
   exists item,
     dataset self !! Z.to_nat (index mod n) = Some item /\
     __getitem__ self index =
     Ok ((index, annotation_scene item),
         (pre_process (loader_inferencer self) (item_numpy item)).1,
         (pre_process (loader_inferencer self) (item_numpy item)).2)) /\
  (~ (- n <= index < n)%Z -> __getitem__ self index = Raise IndexError).
Proof.
  intros n. unfold __getitem__, list_getitem, __len__ in *. fold n.
  split.
  - intros Hrange.
    assert (Hj : (if (index <? 0)%Z then (index + n)%Z else index) = (index mod n)%Z).
    { destruct (index <? 0)%Z eqn:Hneg.
      - apply Z.ltb_lt in Hneg.
        rewrite <- (Z_mod_plus_full index 1 n), Z.mul_1_l.
        symmetry. apply Z.mod_small. lia.
      - apply Z.ltb_ge in Hneg. symmetry. apply Z.mod_small. lia. }
    rewrite Hj.
    assert (Hmod : (0 <= index mod n < n)%Z) by (apply Z.mod_pos_bound; lia).
    rewrite (proj2 (Z.leb_le 0 (index mod n))) by lia.
    rewrite (proj2 (Z.ltb_lt (index mod n) n)) by lia.
    destruct (lookup_lt_is_Some_2 (dataset self) (Z.to_nat (index mod n))) as [item Hitem];
      [subst n; lia |].
    exists item. split; [exact Hitem |].
    cbn. rewrite Hitem. cbn.
    by destruct (pre_process (loader_inferencer self) (item_numpy item)).
  - intros Hout.
    destruct (index <? 0)%Z eqn:Hneg.
    + apply Z.ltb_lt in Hneg.
      rewrite (proj2 (Z.leb_gt 0 (index + n))) by lia. reflexivity.
    + apply Z.ltb_ge in Hneg.
      rewrite (proj2 (Z.leb_le 0 index)) by lia.
      rewrite (proj2 (Z.ltb_ge index n)) by lia. reflexivity.
Qed.

(** *** Properties of the tile classifier wrapper *)


(** *** Properties of the packaging of the model wrappers *)

(** The files [os.walk] finds under the directory of the model wrappers,
    in the order of the walk. *)
Definition walked_files : list string :=
  concat (map (fun walked : string * list string =>
                 map (fun file => os_path_join walked.1 [file]) walked.2)
            (os_walk model_wrappers_dir)).

Lemma for_in_Forall2 {A B} (body : A -> Res B) (l : list A) (ys : list B) :
  for_in body l = Ok ys -> Forall2 (fun x y => body x = Ok y) l ys.
Proof.
  revert ys. induction l as [| x l IH]; intros ys Hrun; cbn in Hrun.
  - injection Hrun as <-. constructor.
  - destruct (body x) as [y |] eqn:Hy; [| discriminate].
    destruct (for_in body l) as [ys' |]; [| discriminate].
    injection Hrun as <-. constructor; eauto.
Qed.

(** X21.  When the packaging of the model wrappers returns, the archive
    has one entry for each file of the walk, in the order of the walk:
    the bytes of the file, under python/model_wrappers/ and the piece of
    the path between the first "model_wrappers/" and the next one, or
    the end. *)
Theorem package_model_wrappers_entries (entries : list ZipEntry) :
  package_model_wrappers = Ok entries ->
  Forall2
    (fun file_path entry =>
       exists rel data',
         str_split file_path "model_wrappers/" !! 1 = Some rel /\
         read_file file_path = Ok data' /\
         entry = Write (zip_arcname (os_path_join "python" ["model_wrappers"; rel])) data')
    walked_files entries.
Proof.
  unfold package_model_wrappers, walked_files.
  destruct (for_in _ (os_walk model_wrappers_dir)) as [walked |] eqn:Hwalk; [| discriminate].
  intros [= <-]. apply for_in_Forall2 in Hwalk.
  induction Hwalk as [| [root files] per_dir walk per_dirs Hdir _ IH]; cbn; [constructor |].
  apply Forall2_app; [| exact IH].
  apply for_in_Forall2 in Hdir. cbn in Hdir. clear IH.
  induction Hdir as [| file entry files per_dir Hfile _ IH]; cbn; constructor; [| exact IH].
  unfold package_model_wrapper_file in Hfile. cbv [mbind Res_bind] in Hfile.
  destruct (str_split _ _ !! 1) as [rel |]; [| discriminate].
  destruct (read_file _) as [data' |]; [| discriminate].
  injection Hfile as <-. by exists rel, data'.
Qed.

End Coverage.

(** *** A concrete world

    Small stand-ins for the libraries, to run the task on: a float is an
    integer kept in one byte, an image a number, a graph the list of its
    node types read off the bytes of the model file (the byte "Q" is a
    FakeQuantize node), a dict a list of integer entries. *)

Inductive DemoValue : Type :=
| DBool (b : bool)
| DInt (n : Z)
| DStr (s : string)
| DDict (entries : list (string * Z)).

#[local] Instance demo_values : Values := {|
  Float := Z;
  Image := nat;
  Array := list Z;
  PyValue := DemoValue;
  Inputs := nat;
  Metadata := nat;
  Detections := list Z;
  DetectionConfig := Z;
  LabelSchemaEntity := list string;
  LabelEntity := string;
  ScoredLabel := string;
  Annotation := string;
  ResultMediaEntity := nat;
  Graph := list string;
  Node := string;
  ResultSetData := nat;
  Performance := nat;
|}.

Definition demo_byte (x : Z) : Byte.byte :=
  default Byte.x00 (Byte.of_N (Z.to_N (x mod 256))).

Definition demo_truthy (v : DemoValue) : bool :=
  match v with
  | DBool b => b
  | DInt n => negb (n =? 0)%Z
  | DStr s => negb (String.eqb s "")
  | DDict entries => match entries with [] => false | _ :: _ => true end
  end.

Definition demo_merge (a : DemoValue) : M DemoValue DemoValue :=
  fun b =>
    match a, b with
    | DDict ea, DDict eb => (Ok (DDict (ea ++ eb)), DDict (ea ++ eb))
    | _, _ => (Raise (LibraryError "TypeError"), b)
    end.

Definition demo_ADDict (v : DemoValue) : Config :=
  {| tiling_parameters :=
       match v with
       | DDict entries => list_to_map (map (fun e : string * Z => (e.1, DInt e.2)) entries)
       | _ => ∅
       end;
     other_parameters := ∅ |}.

Definition demo_node (b : Byte.byte) : string :=
  if Byte.eqb b Byte.x51 then "FakeQuantize" else "Convolution".

#[local] Instance demo_external : External := {|
  float32_tobytes x := [demo_byte x; Byte.x00; Byte.x00; Byte.x00];
  float32_tobytes_length x := eq_refl;
  frombuffer_float32 data' :=
    match data' with
    | [b; _; _; _] => Ok (Z.of_N (Byte.to_N b))
    | _ => Raise (LibraryError "ValueError")
    end;
  reshape_flat a := a;
  first_row a := a;
  shape0 a := length a;
  truthy := demo_truthy;
  py_str v := v;
  empty_ADDict := DDict [];
  truthy_empty_ADDict := eq_refl;
  json_loads data' :=
    match data' with
    | [] => Raise (LibraryError "JSONDecodeError")
    | b :: _ => Ok (DDict [("tile_size", Z.of_N (Byte.to_N b))])
    end;
  json_dumps parameters := Ok (type_of_model parameters +:+ " " +:+ converter_type parameters);
  cpu_count := 4%Z;
  os_walk top := [(top, ["__init__.py"; "openvino_models.py"])];
  read_file path := Ok (String.list_byte_of_string path);
  zip_arcname arcname := arcname;
  model_wrappers_dir := "/otx/model_wrappers";
  demo_dir := "/otx/demo";
  vars_ hparams' := DDict [("confidence_threshold", hparams')];
  flatten_detection_config_groups := fun config' => (Ok tt, config');
  flatten_config_values := fun json_dict => (Ok tt, json_dict);
  merge_a_into_b := demo_merge;
  ADDict := demo_ADDict;
  config_to_bytes hparams' := [demo_byte hparams'];
  label_schema_to_bytes label_schema' := String.list_byte_of_string (String.concat "," label_schema');
  LabelSchemaMapper_forward label_schema' := DStr (String.concat "," label_schema');
  new_LabelEntity name _ := name;
  get_labels annotation := [annotation];
  postprocessing_asdict hparams' := {[ "confidence_threshold" := DInt hparams' ]};
  set_postprocessing_confidence_threshold threshold _ := threshold;
  pot_stat_requests_number _ := 2%Z;
  pot_stat_subset_size _ := 300%Z;
  pot_preset_name_lower _ := "performance";
  str_TaskType task_type' :=
    match task_type' with
    | TaskType.DETECTION => "DETECTION"
    | TaskType.INSTANCE_SEGMENTATION => "INSTANCE_SEGMENTATION"
    | TaskType.ROTATED_DETECTION => "ROTATED_DETECTION"
    | TaskType.OTHER name => name
    end;
  get_subset dataset' _ := dataset';
  compute_f_measure resultset := Ok (result_data resultset);
  saliency_media _ saliency_map _ _ _ _ := [length saliency_map];
  dunder_model model' :=
    match model' with
    | Model_create_model name _ _ => name
    | Model_new _ => "Model"
    end;
  model_preprocess _ image := (image, image);
  model_infer_sync _ inputs := {[ "boxes" := [Z.of_nat inputs] ]};
  model_postprocess _ prediction _ := default [] (prediction !! "boxes");
  detection2array detections := detections;
  convert_to_annotation _ detections _ :=
    {| annotations := map (fun _ => "box") detections |};
  original_shape image := image;
  tiler_predict _ image _ := ([Z.of_nat image], (None, None));
  load_model xml _ := Ok (map demo_node xml);
  get_nodes_by_type graph types := filter (fun node => node ∈ types) graph;
  pipeline_run _ _ graph := Ok (graph ++ ["FakeQuantize"]);
  compress_model_weights graph := Ok graph;
  save_model graph :=
    Ok (String.list_byte_of_string "CQ", String.list_byte_of_string "weights");
|}.

Definition demo_bytes (s : string) : Bytes := String.list_byte_of_string s.

(** A trained instance segmentation model with a tile classifier. *)
Definition demo_model : ModelEntity :=
  {| model_adapters :=
       {[ "openvino.xml" := demo_bytes "CCC";
          "openvino.bin" := demo_bytes "weights";
          "confidence_threshold" := [Byte.x23; Byte.x00; Byte.x00; Byte.x00];
          "config.json" := demo_bytes "{}";
          "tile_classifier.xml" := demo_bytes "C";
          "tile_classifier.bin" := demo_bytes "w" ]};
     model_format := ModelFormat.OTHER "BASE_FRAMEWORK";
     optimization_type := ModelOptimizationType.OTHER "NONE";
     optimization_methods := [];
     precision := [ModelPrecision.OTHER "FP32"];
     exportable_code := None |}.

(** The same model after quantization: its graph has a FakeQuantize
    node. *)
Definition demo_quantized_model : ModelEntity :=
  set_data "openvino.xml" (demo_bytes "CQC") demo_model.

Definition demo_output_model : ModelEntity :=
  {| model_adapters := ∅;
     model_format := ModelFormat.OTHER "BASE_FRAMEWORK";
     optimization_type := ModelOptimizationType.OTHER "NONE";
     optimization_methods := [];
     precision := [];
     exportable_code := None |}.

Definition demo_environment : TaskEnvironment :=
  {| hyper_parameters := 35%Z; label_schema := ["car"; "tree"]; labels := ["car"; "tree"] |}.

Definition demo_config : Config :=
  {| tiling_parameters :=
       {[ "enable_tiling" := DBool true;
          "enable_tile_classifier" := DBool true;
          "tile_size" := DInt 400;
          "tile_overlap" := DInt 0;
          "tile_max_number" := DInt 100;
          "type" := DStr "PARAMETER_GROUP" ]};
     other_parameters := ∅ |}.

Definition demo_task : Task :=
  {| task_environment := demo_environment;
     model := Some demo_model;
     task_type := TaskType.INSTANCE_SEGMENTATION;
     confidence_threshold := 0%Z;
     config := demo_config;
     inferencer :=
       OpenVINOMaskInferencer_init 35%Z ["car"; "tree"]
         (Some (demo_bytes "CCC")) (Some (demo_bytes "weights")) |}.

Definition demo_dataset : list DatasetItemEntity :=
  [ {| item_numpy := 1; annotation_scene := {| annotations := ["car"] |};
       item_metadata := [] |};
    {| item_numpy := 2; annotation_scene := {| annotations := [] |};
       item_metadata := [] |} ].


(** The theorem on the preconditions of [optimize] in the concrete world:
    a model whose graph already has a FakeQuantize node is refused, and
    the output model is untouched. *)
Lemma optimize_preconditions_demo :
  get_nodes_by_type (map demo_node (demo_bytes "CQC")) ["FakeQuantize"] = ["FakeQuantize"] /\
  optimize OptimizationType.POT demo_dataset
    (set_model (Some demo_quantized_model) demo_task, demo_output_model) =
  (Raise (RuntimeError "Model is already optimized by POT"),
   (set_model (Some demo_quantized_model) demo_task, demo_output_model)).
Proof.
  split; [vm_compute; reflexivity |].
  refine (proj2 (proj2 (optimize_preconditions OptimizationType.POT demo_dataset
                          (set_model (Some demo_quantized_model) demo_task)
                          demo_output_model))
            demo_quantized_model (demo_bytes "CQC") (demo_bytes "weights")
            (map demo_node (demo_bytes "CQC")) eq_refl eq_refl _ _ eq_refl _).
  - vm_compute. reflexivity.
  - vm_compute. reflexivity.
  - vm_compute. discriminate.
Defined.



(** An output model that already carries the tile classifier: the task
    has tiling and the tile classifier on, and [optimize] reloads its
    inferencer from the output model, to which it writes no tile
    classifier itself. *)
Definition demo_tiled_output_model : ModelEntity :=
  set_data "tile_classifier.xml" (demo_bytes "C")
    (set_data "tile_classifier.bin" (demo_bytes "w") demo_output_model).

(** The theorem on what [optimize] leaves, in the concrete world: the
    run returns, and the output model is the quantized model the task
    now works with. *)
Lemma optimize_postcondition_demo :
  exists self' output_model',
    optimize OptimizationType.POT demo_dataset (demo_task, demo_tiled_output_model)
      = (Ok tt, (self', output_model')) /\
    get_data output_model' "openvino.xml" = Ok (demo_bytes "CQ") /\
    get_data output_model' "confidence_threshold"
      = Ok [Byte.x00; Byte.x00; Byte.x00; Byte.x00] /\
    precision output_model' = [ModelPrecision.INT8] /\
    model self' = Some output_model'.
Proof.
  destruct (optimize OptimizationType.POT demo_dataset (demo_task, demo_tiled_output_model))
    as [[[] | e] [self' output_model']] eqn:Hrun.
  - exists self', output_model'. split; [reflexivity |].
    destruct (optimize_postcondition _ _ _ _ _ _ Hrun)
      as ((compressed_model & xml & bin & Hsave & Hxml & Hbin) & Hthreshold & _ & _ & _
          & _ & _ & _ & Hprecision & Hmodel & _).
    injection Hsave as <- <-.
    repeat split; assumption.
  - exfalso. vm_compute in Hrun. discriminate Hrun.
Defined.

(** [infer] on a dataset of two items: each item gets the predicted
    annotation after the ones it had, and no metadata, the concrete
    network giving no feature vector. *)
Example infer_demo :
  infer demo_task None demo_dataset =
  (Ok tt,
   [ {| item_numpy := 1; annotation_scene := {| annotations := ["car"; "box"] |};
        item_metadata := [] |};
     {| item_numpy := 2; annotation_scene := {| annotations := ["box"] |};
        item_metadata := [] |} ]).
Proof. vm_compute. reflexivity. Qed.

(** *** The further properties in the concrete world *)

(** The property of [predict], at the mask inferencer of the task: the
    concrete network gives neither a feature vector nor a saliency map. *)
Lemma predict_features_both_or_none_demo :
  let raw_predictions :=
    forward (inferencer demo_task) (pre_process (inferencer demo_task) 1).1 in
  let features := (predict (inferencer demo_task) 1).2 in
  (is_Some features.1 <-> is_Some features.2) /\
  (is_Some features.2 <->
   is_Some (raw_predictions !! "feature_vector") /\
   is_Some (raw_predictions !! "saliency_map")).
Proof.
  apply (predict_features_both_or_none (inferencer demo_task) 1).
  intros tiler. cbn. discriminate.
Defined.

(** The property of [infer] on a dataset that is not empty, at the
    dataset of two items. *)
Lemma infer_appends_to_items_demo :
  exists result,
    infer demo_task None demo_dataset = (Ok tt, result) /\
    Forall2
      (fun item item' =>
         let prediction := predict (inferencer demo_task) (item_numpy item) in
         exists media,
           appended_to item item' (annotations prediction.1)
             (representation_items demo_task prediction.2.1
              ++ saliency_items demo_task media))
      demo_dataset result.
Proof.
  apply (infer_appends_to_items demo_task None demo_dataset). discriminate.
Defined.


(** The property of [load_config] without a stored configuration, at the
    task without its model. *)
Lemma load_config_without_stored_config_demo :
  load_config (set_model None demo_task)
  = (Ok (ADDict (DDict [("confidence_threshold", 35%Z)])), []).
Proof.
  apply (load_config_without_stored_config (set_model None demo_task)
           (DDict [("confidence_threshold", 35%Z)])).
  - reflexivity.
  - left. reflexivity.
Defined.

(** The property of the runs of [load_inferencer] that return, at the
    task, whose tiling is on. *)
Lemma load_inferencer_returns_only_for_demo :
  exists inferencer' self',
    load_inferencer demo_task = (Ok inferencer', self') /\
    confidence_threshold self' = 35%Z /\
    inferencer_model inferencer' =
      Model_create_model "OTX_MaskRCNN"
        (new_adapter (Some (demo_bytes "CCC")) (Some (demo_bytes "weights")))
        {[ "confidence_threshold" := DInt 35 ]} /\
    exists tiler, class_ inferencer' = OpenVINOTileClassifierWrapper tiler.
Proof.
  destruct (load_inferencer demo_task) as [[inferencer' | e] self'] eqn:Hrun.
  - exists inferencer', self'. split; [reflexivity |].
    destruct (load_inferencer_returns_only_for demo_task self' inferencer' Hrun)
      as (model' & data' & threshold & xml & bin & base & Hmodel & Hdata & Hthreshold
          & Hxml & Hbin & Hbase & -> & Hinferencer_model & _ & _ & Hclass).
    injection Hmodel as <-.
    vm_compute in Hdata. injection Hdata as <-.
    vm_compute in Hthreshold. injection Hthreshold as <-.
    vm_compute in Hxml. injection Hxml as <-.
    vm_compute in Hbin. injection Hbin as <-.
    vm_compute in Hbase. injection Hbase as <-.
    split; [reflexivity |]. split; [exact Hinferencer_model |]. exact Hclass.
  - exfalso. vm_compute in Hrun. discriminate Hrun.
Defined.

(** A task of a type the adapter does not serve. *)
Definition demo_classification_task : Task :=
  {| task_environment := demo_environment;
     model := Some demo_model;
     task_type := TaskType.OTHER "CLASSIFICATION";
     confidence_threshold := 0%Z;
     config := demo_config;
     inferencer := inferencer demo_task |}.

(** The property of [load_inferencer] for another task type, at that
    task. *)
Lemma load_inferencer_other_task_type_raises_demo :
  load_inferencer demo_classification_task =
  (Raise (UnboundLocalError "inferencer"),
   set_confidence_threshold 35%Z demo_classification_task).
Proof.
  refine (proj2 (load_inferencer_other_task_type_raises demo_classification_task
                   "CLASSIFICATION" eq_refl)
            demo_model [Byte.x23; Byte.x00; Byte.x00; Byte.x00] 35%Z
            (demo_bytes "CCC") (demo_bytes "weights") eq_refl _ eq_refl _ _ _).
  - vm_compute. reflexivity.
  - vm_compute. reflexivity.
  - vm_compute. reflexivity.
  - intros _ _. exists (demo_bytes "C"), (demo_bytes "w").
    split; vm_compute; reflexivity.
Defined.


(** The frame property of [optimize], at the output model that carries
    the tile classifier: it still does. *)
Lemma optimize_frame_demo :
  exists self' output_model',
    optimize OptimizationType.POT demo_dataset (demo_task, demo_tiled_output_model)
      = (Ok tt, (self', output_model')) /\
    model_adapters output_model' !! "tile_classifier.xml" = Some (demo_bytes "C") /\
    exportable_code output_model' = None /\
    config self' = demo_config.
Proof.
  destruct (optimize OptimizationType.POT demo_dataset (demo_task, demo_tiled_output_model))
    as [[[] | e] [self' output_model']] eqn:Hrun.
  - exists self', output_model'. split; [reflexivity |].
    destruct (optimize_frame _ _ _ _ _ _ Hrun)
      as (Hkeys & Hcode & _ & _ & Hconfig).
    split; [| split; [exact Hcode | exact Hconfig]].
    rewrite Hkeys; [vm_compute; reflexivity |].
    intros Hin.
    repeat (apply elem_of_cons in Hin as [Hin | Hin]; [discriminate Hin |]).
    by apply elem_of_nil in Hin.
  - exfalso. vm_compute in Hrun. discriminate Hrun.
Defined.

(** The property of the reload of [optimize], at the same run: the
    inferencer works on the files saved from the compressed model. *)
Lemma optimize_reloads_quantized_model_demo :
  exists self' output_model',
    optimize OptimizationType.POT demo_dataset (demo_task, demo_tiled_output_model)
      = (Ok tt, (self', output_model')) /\
    confidence_threshold self' = 0%Z /\
    inferencer_model (inferencer self') =
      Model_create_model "OTX_MaskRCNN"
        (new_adapter (Some (demo_bytes "CQ")) (Some (demo_bytes "weights")))
        {[ "confidence_threshold" := DInt 0 ]}.
Proof.
  destruct (optimize OptimizationType.POT demo_dataset (demo_task, demo_tiled_output_model))
    as [[[] | e] [self' output_model']] eqn:Hrun.
  - exists self', output_model'. split; [reflexivity |].
    destruct (optimize_reloads_quantized_model _ _ _ _ _ _ Hrun)
      as (compressed & xml & bin & base & Hsave & Hthreshold & Hbase & Hmodel & _ & _).
    vm_compute in Hsave. injection Hsave as <- <-.
    assert (Hzero : confidence_threshold self' = 0%Z).
    { vm_compute in Hthreshold. injection Hthreshold as Hthreshold.
      symmetry. exact Hthreshold. }
    rewrite Hzero in Hbase.
    vm_compute in Hbase. injection Hbase as <-.
    split; [exact Hzero |]. exact Hmodel.
  - exfalso. vm_compute in Hrun. discriminate Hrun.
Defined.

(** The property of the calibration of [optimize], at the same run: the
    statistics are taken on the two items of the dataset, with two
    requests. *)
Lemma optimize_calibration_setup_demo :
  exists self' output_model' algorithm engine,
    optimize OptimizationType.POT demo_dataset (demo_task, demo_tiled_output_model)
      = (Ok tt, (self', output_model')) /\
    dataset (data_loader engine) = demo_dataset /\
    (stat_subset_size algorithm <= 2)%Z /\
    (stat_requests_number (engine_config engine) <= 2)%Z.
Proof.
  destruct (optimize OptimizationType.POT demo_dataset (demo_task, demo_tiled_output_model))
    as [[[] | e] [self' output_model']] eqn:Hrun.
  - destruct (optimize_calibration_setup _ _ _ _ _ _ Hrun)
      as (model' & xml0 & bin0 & graph & algorithm & engine & compressed0 & compressed
          & xml & bin & _ & _ & _ & _ & _ & _ & _ & _ & _ & _ & _ & Hdataset & _
          & Hsize & _ & _ & Hrequests).
    exists self', output_model', algorithm, engine. split; [reflexivity |].
    split; [exact Hdataset |].
    unfold __len__ in Hsize. rewrite Hdataset in Hsize.
    split; [exact Hsize | exact Hrequests].
  - exfalso. vm_compute in Hrun. discriminate Hrun.
Defined.

(** The footprint of [deploy], at the task: the configuration of its
    inferencer has the labels, and the output model has its code. *)
Lemma deploy_footprint_demo :
  exists self' output_model',
    deploy (demo_task, demo_output_model) = (Ok tt, (self', output_model')) /\
    configuration (inferencer self') !! "labels" = Some (DStr "car,tree") /\
    tiling_parameters (config self') !! "tile_size" = Some (DInt 400) /\
    model_adapters output_model' = ∅ /\
    is_Some (exportable_code output_model').
Proof.
  destruct (deploy (demo_task, demo_output_model))
    as [[[] | e] [self' output_model']] eqn:Hrun.
  - exists self', output_model'. split; [reflexivity |].
    destruct (deploy_footprint _ _ _ _ _ Hrun)
      as (_ & _ & _ & _ & -> & -> & arch & _ & ->).
    split; [vm_compute; reflexivity |]. split; [vm_compute; reflexivity |].
    split; [reflexivity |]. by exists arch.
  - exfalso. vm_compute in Hrun. discriminate Hrun.
Defined.

(** The entries of the model wrappers, for the two files of the concrete
    walk. *)
Lemma package_model_wrappers_entries_demo :
  walked_files = ["/otx/model_wrappers/__init__.py";
                  "/otx/model_wrappers/openvino_models.py"] /\
  Forall2
    (fun file_path entry =>
       exists rel data',
         str_split file_path "model_wrappers/" !! 1 = Some rel /\
         read_file file_path = Ok data' /\
         entry = Write (zip_arcname (os_path_join "python" ["model_wrappers"; rel])) data')
    walked_files
    [Write "python/model_wrappers/__init__.py"
       (demo_bytes "/otx/model_wrappers/__init__.py");
     Write "python/model_wrappers/openvino_models.py"
       (demo_bytes "/otx/model_wrappers/openvino_models.py")].
Proof.
  split; [reflexivity |].
  apply package_model_wrappers_entries. vm_compute. reflexivity.
Defined.

(** *** A network that exports its features

    The same libraries, with a network that gives a feature vector and a
    saliency map of three rows for every image but the image 0. *)

Definition demo_external_features : External := {|
  float32_tobytes x := [demo_byte x; Byte.x00; Byte.x00; Byte.x00];
  float32_tobytes_length x := eq_refl;
  frombuffer_float32 data' :=
    match data' with
    | [b; _; _; _] => Ok (Z.of_N (Byte.to_N b))
    | _ => Raise (LibraryError "ValueError")
    end;
  reshape_flat a := a;
  first_row a := a;
  shape0 a := length a;
  truthy := demo_truthy;
  py_str v := v;
  empty_ADDict := DDict [];
  truthy_empty_ADDict := eq_refl;
  json_loads data' :=
    match data' with
    | [] => Raise (LibraryError "JSONDecodeError")
    | b :: _ => Ok (DDict [("tile_size", Z.of_N (Byte.to_N b))])
    end;
  json_dumps parameters := Ok (type_of_model parameters +:+ " " +:+ converter_type parameters);
  cpu_count := 4%Z;
  os_walk top := [(top, ["__init__.py"; "openvino_models.py"])];
  read_file path := Ok (String.list_byte_of_string path);
  zip_arcname arcname := arcname;
  model_wrappers_dir := "/otx/model_wrappers";
  demo_dir := "/otx/demo";
  vars_ hparams' := DDict [("confidence_threshold", hparams')];
  flatten_detection_config_groups := fun config' => (Ok tt, config');
  flatten_config_values := fun json_dict => (Ok tt, json_dict);
  merge_a_into_b := demo_merge;
  ADDict := demo_ADDict;
  config_to_bytes hparams' := [demo_byte hparams'];
  label_schema_to_bytes label_schema' := String.list_byte_of_string (String.concat "," label_schema');
  LabelSchemaMapper_forward label_schema' := DStr (String.concat "," label_schema');
  new_LabelEntity name _ := name;
  get_labels annotation := [annotation];
  postprocessing_asdict hparams' := {[ "confidence_threshold" := DInt hparams' ]};
  set_postprocessing_confidence_threshold threshold _ := threshold;
  pot_stat_requests_number _ := 2%Z;
  pot_stat_subset_size _ := 300%Z;
  pot_preset_name_lower _ := "performance";
  str_TaskType task_type' :=
    match task_type' with
    | TaskType.DETECTION => "DETECTION"
    | TaskType.INSTANCE_SEGMENTATION => "INSTANCE_SEGMENTATION"
    | TaskType.ROTATED_DETECTION => "ROTATED_DETECTION"
    | TaskType.OTHER name => name
    end;
  get_subset dataset' _ := dataset';
  compute_f_measure resultset := Ok (result_data resultset);
  saliency_media _ saliency_map _ _ _ _ := [length saliency_map];
  dunder_model model' :=
    match model' with
    | Model_create_model name _ _ => name
    | Model_new _ => "Model"
    end;
  model_preprocess _ image := (image, image);
  model_infer_sync _ inputs :=
    match inputs with
    | 0 => {[ "boxes" := [0%Z] ]}
    | S _ =>
        {[ "boxes" := [Z.of_nat inputs];
           "feature_vector" := [1; 2]%Z;
           "saliency_map" := [5; 6; 7]%Z ]}
    end;
  model_postprocess _ prediction _ := default [] (prediction !! "boxes");
  detection2array detections := detections;
  convert_to_annotation _ detections _ :=
    {| annotations := map (fun _ => "box") detections |};
  original_shape image := image;
  tiler_predict _ image _ := ([Z.of_nat image], (None, None));
  load_model xml _ := Ok (map demo_node xml);
  get_nodes_by_type graph types := filter (fun node => node ∈ types) graph;
  pipeline_run _ _ graph := Ok (graph ++ ["FakeQuantize"]);
  compress_model_weights graph := Ok graph;
  save_model graph :=
    Ok (String.list_byte_of_string "CQ", String.list_byte_of_string "weights");
|}.

Section Features.

#[local] Existing Instance demo_external_features.

Definition demo_item (image : nat) : DatasetItemEntity :=
  {| item_numpy := image; annotation_scene := {| annotations := [] |};
     item_metadata := [] |}.

(** The property of the runs of [explain] that return, at two images
    with a saliency map: each item gets one saliency map item. *)
Lemma explain_appends_to_items_demo :
  exists result,
    explain demo_task None [demo_item 1; demo_item 2] = (Ok tt, result) /\
    Forall2 (explained demo_task) [demo_item 1; demo_item 2] result.
Proof.
  apply (explain_appends_to_items demo_task None [demo_item 1; demo_item 2]).
  repeat constructor; eexists; vm_compute; reflexivity.
Defined.

(** The property of the runs of [explain] that raise, at a dataset whose
    second image has no saliency map: the first item is explained, the
    second has its annotations, the third is as it was. *)
Lemma explain_raises_without_saliency_map_demo :
  exists before',
    explain demo_task None ([demo_item 1] ++ demo_item 0 :: [demo_item 2]) =
    (Raise (RuntimeError no_saliency_map_message),
     before' ++
     append_annotations
       (annotations (predict (inferencer demo_task) (item_numpy (demo_item 0))).1)
       (demo_item 0)
     :: [demo_item 2]) /\
    Forall2 (explained demo_task) [demo_item 1] before'.
Proof.
  apply (explain_raises_without_saliency_map demo_task None [demo_item 1] [demo_item 2]
           (demo_item 0)).
  - repeat constructor; eexists; vm_compute; reflexivity.
  - vm_compute. reflexivity.
Defined.

Example explain_demo :
  explain demo_task None [demo_item 1; demo_item 0; demo_item 2] =
  (Raise (RuntimeError no_saliency_map_message),
   [ {| item_numpy := 1; annotation_scene := {| annotations := ["box"] |};
        item_metadata :=
          [{| data := SaliencyMedia 3; metadata_model := Some demo_model |}] |};
     {| item_numpy := 0; annotation_scene := {| annotations := ["box"] |};
        item_metadata := [] |};
     demo_item 2 ]).
Proof. vm_compute. reflexivity. Qed.

End Features.

End OpenVINO.
